(** * Mjolnir deck builder: a shallow embedding of [commands/deck_builder.py]

    The builder reads a markdown outline, walks the parsed document tree and
    writes one flashcard package.  The embedding follows the Python source
    function by function:

    - text is [string], holding the bytes of the UTF-8 form of a Python
      [str]; [str.lower] is written out for text made of ASCII characters,
      and for other text it is the Unicode case mapping, which is taken as
      a parameter ([Str.Unicode]);
    - the parsed document is a tree of [node]s, and an element handed around
      by the code is a [PageElement]: a node together with the siblings that
      follow it, which is all the navigation the source uses
      ([find], [find_all], [find_next_sibling], [find_next_siblings], [text]);
    - effects (random identifiers, [click.echo], the [dist] directory and the
      package files) are threaded through a state-and-exception monad [M];
      what the operating system answers when a file is opened is part of
      the state;
    - the markdown renderer and the HTML parser are collaborators from
      outside the repository: the constructor [Builder.init] and the command
      [Builder.build] take them as parameters. *)

From Stdlib Require Import ZArith Lia Ascii String.
From stdpp Require Import gmap strings list.

Open Scope string_scope.
Open Scope list_scope.

(** ** Text *)

Module Str.

Definition nl : string := String (ascii_of_nat 10) EmptyString.
Definition tab : string := String (ascii_of_nat 9) EmptyString.

Fixpoint map (f : ascii -> ascii) (s : string) : string :=
  match s with
  | EmptyString => EmptyString
  | String c r => String (f c) (map f r)
  end.

(** A character below 128 is one byte of the text, and no byte of another
    character is below 128. *)
Definition is_ascii_char (c : ascii) : bool := (nat_of_ascii c <? 128)%nat.

Fixpoint is_ascii (s : string) : bool :=
  match s with
  | EmptyString => true
  | String c r => is_ascii_char c && is_ascii r
  end.

(** [c in s], for one character. *)
Fixpoint contains (c : ascii) (s : string) : bool :=
  match s with
  | EmptyString => false
  | String x r => Ascii.eqb x c || contains c r
  end.

(** The lower-case letter of an upper-case ASCII letter; another byte is
    kept. *)
Definition ascii_lower (c : ascii) : ascii :=
  let n := nat_of_ascii c in
  if (65 <=? n)%nat && (n <=? 90)%nat then ascii_of_nat (n + 32) else c.

(** [str.lower] follows the Unicode case mapping.  On text made of ASCII
    characters it is [ascii_lower] on every character.  On other text it
    needs the Unicode tables, which are no part of the program: the mapping
    of such text is the parameter [lower_beyond_ascii], about which nothing
    is assumed. *)
Class Unicode : Type := { lower_beyond_ascii : string -> string }.

Definition lower {U : Unicode} (s : string) : string :=
  if is_ascii s then map ascii_lower s else lower_beyond_ascii s.

(** A stand-in for the tables, for examples. *)
Definition ascii_only : Unicode := {| lower_beyond_ascii := map ascii_lower |}.

Fixpoint drop (n : nat) (s : string) : string :=
  match n, s with
  | O, _ => s
  | S _, EmptyString => EmptyString
  | S k, String _ r => drop k r
  end.

(** [str.replace(old, new)] for a non-empty [old]: the occurrences are
    taken from the left and do not overlap.  [skip] counts the characters
    of the occurrence just replaced that are still to be passed over. *)
Fixpoint replace_from (old new : string) (skip : nat) (s : string) : string :=
  match s with
  | EmptyString => EmptyString
  | String c r =>
      match skip with
      | S k => replace_from old new k r
      | O =>
          if String.prefix old s
          then new +:+ replace_from old new (String.length old - 1) r
          else String c (replace_from old new O r)
      end
  end.

(** With an empty [old], Python puts [new] before every character and at
    the end. *)
Fixpoint replace_empty (new : string) (s : string) : string :=
  match s with
  | EmptyString => new
  | String c r => new +:+ String c (replace_empty new r)
  end.

Definition replace (old new : string) (s : string) : string :=
  match old with
  | EmptyString => replace_empty new s
  | String _ _ => replace_from old new O s
  end.

Definition endswith (suffix s : string) : bool :=
  let n := String.length s in
  let k := String.length suffix in
  (k <=? n)%nat && String.eqb (drop (n - k) s) suffix.

(** [str.removesuffix]. *)
Definition removesuffix (suffix s : string) : string :=
  if endswith suffix s
  then String.substring 0 (String.length s - String.length suffix) s
  else s.

Fixpoint concat (l : list string) : string :=
  match l with
  | [] => EmptyString
  | s :: r => s +:+ concat r
  end.

End Str.

(** ** The document tree *)

(** A node of the tree built by the HTML parser.  Attributes are left out:
    the builder never reads one. *)
#[local] Unset Elimination Schemes.
Inductive node : Type :=
| NavigableString (s : string)
| Comment (s : string)
| Tag (name : string) (contents : list node).
#[local] Set Elimination Schemes.

(** Induction on the tree, with the hypothesis for every child of a tag. *)
Fixpoint node_ind (P : node -> Prop)
    (HS : forall s, P (NavigableString s))
    (HC : forall s, P (Comment s))
    (HT : forall name cs, Forall P cs -> P (Tag name cs))
    (n : node) : P n :=
  match n with
  | NavigableString s => HS s
  | Comment s => HC s
  | Tag name cs =>
      HT name cs
        ((fix all (l : list node) : Forall P l :=
            match l with
            | [] => @List.Forall_nil node P
            | c :: r => @List.Forall_cons node P c r (node_ind P HS HC HT c) (all r)
            end) cs)
  end.

(** An element as the code holds it: the node and the siblings after it. *)
Record PageElement : Type := mkPageElement {
  el : node;
  next_siblings : list node
}.

(** The root object of a parsed document.  It is a tag of its own, named
    [[document]], and has no sibling. *)
Definition BeautifulSoup (contents : list node) : PageElement :=
  {| el := Tag "[document]" contents; next_siblings := [] |}.

Definition is_tag (n : node) : bool :=
  match n with
  | Tag _ _ => true
  | _ => false
  end.

Definition tag_named (name : string) (n : node) : bool :=
  match n with
  | Tag t _ => String.eqb t name
  | _ => false
  end.

(** The elements of a sibling list, each with the siblings after it. *)
Fixpoint positions (l : list node) : list PageElement :=
  match l with
  | [] => []
  | c :: r => {| el := c; next_siblings := r |} :: positions r
  end.

(** [Tag.descendants]: every node below [n], in document order. *)
Fixpoint descendants (n : node) : list PageElement :=
  match n with
  | Tag _ cs =>
      (fix walk (l : list node) : list PageElement :=
         match l with
         | [] => []
         | c :: r => {| el := c; next_siblings := r |} :: descendants c ++ walk r
         end) cs
  | _ => []
  end.

Definition walk (l : list node) : list PageElement :=
  descendants (Tag "" l).

(** [Tag.text]: the strings below a tag, joined; comments are not part of
    it.  The builder reads [text] of tags only. *)
Fixpoint text (n : node) : string :=
  match n with
  | NavigableString s => s
  | Comment _ => EmptyString
  | Tag _ cs =>
      (fix join (l : list node) : string :=
         match l with
         | [] => EmptyString
         | c :: r => text c +:+ join r
         end) cs
  end.

(** The search methods, by tag name.  [find_all] and [find] look through the
    descendants of an element in document order, [find] keeping the first
    result; [find_next_siblings] and [find_next_sibling] look through the
    siblings after it.  Without a name ([None]) every sibling is kept; the
    one caller that gives no name skips what is not a tag itself. *)
Definition matches (name : option string) (e : PageElement) : bool :=
  match name with
  | None => true
  | Some t => tag_named t (el e)
  end.

Definition find_all (name : string) (e : PageElement) : list PageElement :=
  List.filter (matches (Some name)) (descendants (el e)).

Definition find (name : string) (e : PageElement) : option PageElement :=
  head (find_all name e).

Definition find_next_siblings (name : option string) (e : PageElement)
  : list PageElement :=
  List.filter (matches name) (positions (next_siblings e)).

Definition find_next_sibling (name : string) (e : PageElement)
  : option PageElement :=
  head (find_next_siblings (Some name) e).

(** ** The world outside the program *)

Inductive exn : Type :=
| ValueError
| UnboundLocalError
| FileExistsError
| FileNotFoundError
| NotADirectoryError
| IsADirectoryError
| PermissionError
| UnicodeDecodeError
| OSError
| BadParameter.

Inductive result (A : Type) : Type :=
| Ok (a : A)
| Raise (e : exn).
Arguments Ok {A} a.
Arguments Raise {A} e.

(** What the builder creates and hands to the package writer. *)
Module genanki.

Record Template : Type := mkTemplate {
  template_name : string;
  qfmt : string;
  afmt : string
}.

Record Model : Type := mkModel {
  model_id : Z;
  model_name : string;
  model_fields : list string;
  templates : list Template
}.

Record Note : Type := mkNote {
  model : Model;
  fields : list string;
  tags : list string
}.

Record Deck : Type := mkDeck {
  deck_id : Z;
  name : string;
  notes : list Note
}.

Definition add_note (d : Deck) (n : Note) : Deck :=
  {| deck_id := deck_id d; name := name d; notes := notes d ++ [n] |}.

(** A package holds the decks it was built from: [Package(deck)] takes one
    deck and keeps the one-element list. *)
Record Package : Type := mkPackage {
  decks : list Deck
}.

Definition Package_of (d : Deck) : Package := {| decks := [d] |}.

End genanki.

Inductive path_kind : Type := Absent | Directory | RegularFile.

(** - [dist]: what the path [dist] is in the working directory;
    - [packages]: the package files written so far, by path;
    - [sources]: the text files the command can read, by path;
    - [stdout]: the lines printed by [click.echo];
    - [entropy], [drawn]: the system's random source and how many numbers
      were taken from it;
    - [os_open]: what the operating system answers when a path below an
      existing directory [dist] is opened for writing: [None] when the
      file is opened, or the error it raises (a directory of the path is
      missing, permission is denied, ...);
    - [unreadable]: the paths at which something readable exists that is
      no text file (a directory, a file whose bytes are no text in the
      encoding of the locale), with the error that [open] or [read]
      raises there; a path is looked up in [sources] first. *)
Record world : Type := mkWorld {
  dist : path_kind;
  packages : gmap string genanki.Package;
  sources : gmap string string;
  stdout : list string;
  entropy : nat -> Z;
  drawn : nat;
  os_open : string -> option exn;
  unreadable : gmap string exn
}.

Definition M (A : Type) : Type := world -> result A * world.

Definition ret {A} (a : A) : M A := fun w => (Ok a, w).

Definition raise {A} (e : exn) : M A := fun w => (Raise e, w).

Definition bind {A B} (c : M A) (k : A -> M B) : M B :=
  fun w =>
    match c w with
    | (Ok a, w') => k a w'
    | (Raise e, w') => (Raise e, w')
    end.

Notation "x <- c ;; k" := (bind c (fun x => k))
  (at level 100, c at next level, right associativity).
Notation "c ;;; k" := (bind c (fun _ => k))
  (at level 100, right associativity).

(** A [for] loop that carries its accumulator and may raise. *)
Fixpoint for_each {A S} (body : S -> A -> M S) (l : list A) (s : S) : M S :=
  match l with
  | [] => ret s
  | a :: r => s' <- body s a ;; for_each body r s'
  end.

Definition echo (line : string) : M unit :=
  fun w =>
    (Ok tt,
     {| dist := dist w; packages := packages w; sources := sources w;
        stdout := stdout w ++ [line];
        entropy := entropy w; drawn := drawn w;
        os_open := os_open w; unreadable := unreadable w |}).

(** [secrets.randbelow n]: the next number of the random source, in
    [0, n). *)
Definition randbelow (n : Z) : M Z :=
  fun w =>
    (Ok (entropy w (drawn w) mod n)%Z,
     {| dist := dist w; packages := packages w; sources := sources w;
        stdout := stdout w;
        entropy := entropy w; drawn := S (drawn w);
        os_open := os_open w; unreadable := unreadable w |}).

Definition path_exists (k : path_kind) : bool :=
  match k with
  | Absent => false
  | _ => true
  end.

Definition path_isdir (k : path_kind) : bool :=
  match k with
  | Directory => true
  | _ => false
  end.

Definition os_path_exists_dist : M bool := fun w => (Ok (path_exists (dist w)), w).
Definition os_path_isdir_dist : M bool := fun w => (Ok (path_isdir (dist w)), w).

(** [os.mkdir("dist")]. *)
Definition os_mkdir_dist : M unit :=
  fun w =>
    match dist w with
    | Absent =>
        (Ok tt,
         {| dist := Directory; packages := packages w; sources := sources w;
            stdout := stdout w; entropy := entropy w; drawn := drawn w;
        os_open := os_open w; unreadable := unreadable w |})
    | _ => (Raise FileExistsError, w)
    end.

(** The error of opening [path] for writing, if there is one.  Python
    refuses a path that holds a NUL character.  Every path the builder
    writes starts with [dist/]: nothing can be opened when [dist] is
    missing or is a file, and below a directory [dist] the operating
    system decides, by the rest of the path. *)
Definition open_error (w : world) (path : string) : option exn :=
  if Str.contains (ascii_of_nat 0) path then Some ValueError
  else
    match dist w with
    | Absent => Some FileNotFoundError
    | RegularFile => Some NotADirectoryError
    | Directory => os_open w path
    end.

(** [Package.write_to_file]: the file is created or replaced when the path
    can be opened, and is kept under the path as it was given. *)
Definition write_to_file (p : genanki.Package) (path : string) : M unit :=
  fun w =>
    match open_error w path with
    | Some e => (Raise e, w)
    | None =>
        (Ok tt,
         {| dist := dist w; packages := <[path := p]> (packages w);
            sources := sources w; stdout := stdout w;
            entropy := entropy w; drawn := drawn w;
            os_open := os_open w; unreadable := unreadable w |})
    end.

(** [genanki.Note(model, fields, tags)]: a tag that holds a space is
    refused when the note is made. *)
Definition new_Note (model : genanki.Model) (fields tags : list string)
  : M genanki.Note :=
  if existsb (Str.contains (ascii_of_nat 32)) tags then raise ValueError
  else ret {| genanki.model := model; genanki.fields := fields;
              genanki.tags := tags |}.

(** ** The builder's records *)

Definition generate_identifier : M Z :=
  r <- randbelow 1000000000 ;;
  ret (999999999 + r)%Z.

Module Card.
Record t : Type := mk {
  id : Z;
  front : string;
  back : string;
  tags : list string
}.
End Card.

(** [SubDeck] inherits [sub_decks] from [Deck]; the builder never reads or
    writes it on a sub-deck, and the record leaves it out. *)
Module SubDeck.
Record t : Type := mk {
  id : Z;
  name : string;
  cards : list Card.t
}.

Definition set_cards (cs : list Card.t) (d : t) : t :=
  {| id := id d; name := name d; cards := cs |}.

Definition add_card (d : t) (card : Card.t) : t :=
  set_cards (cards d ++ [card]) d.
End SubDeck.

Module Deck.
Record t : Type := mk {
  id : Z;
  name : string;
  sub_decks : list SubDeck.t
}.

Definition add_subdeck (d : t) (subdeck : SubDeck.t) : t :=
  {| id := id d; name := name d; sub_decks := sub_decks d ++ [subdeck] |}.

Definition file_name {U : Str.Unicode} (d : t) : string :=
  Str.lower (Str.replace " " "-" (name d)).
End Deck.

(** ** The builder *)

Module Builder.

Record t : Type := mk {
  raw_contents : string;
  _html : string;
  soup : PageElement
}.

Definition model : M genanki.Model :=
  i <- generate_identifier ;;
  ret {| genanki.model_id := i;
         genanki.model_name := "Simple Model";
         genanki.model_fields := ["Question"; "Answer"];
         genanki.templates :=
           [ {| genanki.template_name := "Card 1";
                genanki.qfmt := "{{Question}}";
                genanki.afmt := "{{FrontSide}}<hr id='answer'>{{Answer}}" |} ] |}.

(** [ul] is the document object parsed from the printed list.  The guard
    [if not ul] is not taken: a document object counts as true whatever it
    holds.  [find] gives the first [li] in document order, and the loop of
    the first branch runs over the [li]s after it in the same parent. *)
Definition format_ul (ul : PageElement) : string :=
  match find "li" ul with
  | Some top_level =>
      fold_left
        (fun formatted sub_note =>
           formatted +:+ Str.tab +:+ "- " +:+ text (el sub_note) +:+ Str.nl)
        (find_next_siblings (Some "li") top_level)
        (Str.removesuffix (Str.nl +:+ Str.nl +:+ Str.nl) (text (el top_level))
           +:+ Str.nl)
  | None =>
      fold_left
        (fun formatted top_level => formatted +:+ text (el top_level) +:+ Str.nl)
        (find_all "li" ul)
        ""
  end.

Definition create_subdeck (h2_el : PageElement) : M SubDeck.t :=
  subdeck_id <- generate_identifier ;;
  let subdeck_name := text (el h2_el) in
  echo ("Subdeck: " +:+ subdeck_name) ;;;
  ret {| SubDeck.id := subdeck_id; SubDeck.name := subdeck_name;
         SubDeck.cards := [] |}.

(** The list found after the heading is printed and parsed again before it
    is formatted; the embedding takes the parser to read back the tree that
    was printed, so the new document has the list as its only child. *)
Definition create_note (h3_el : PageElement) : M Card.t :=
  card_id <- generate_identifier ;;
  let card_front := text (el h3_el) in
  match find_next_sibling "ul" h3_el with
  | None => raise ValueError
  | Some card_information =>
      let card_back := format_ul (BeautifulSoup [el card_information]) in
      echo ("Card: " +:+ card_front) ;;;
      ret {| Card.id := card_id; Card.front := card_front;
             Card.back := card_back; Card.tags := [] |}
  end.

(** The note loop of [export], for one sub-deck. *)
Definition add_notes (anki_model : genanki.Model) (cards : list Card.t)
    (anki_subdeck : genanki.Deck) : M genanki.Deck :=
  for_each
    (fun d card =>
       anki_card <- new_Note anki_model [Card.front card; Card.back card]
                      (Card.tags card) ;;
       ret (genanki.add_note d anki_card))
    cards anki_subdeck.

(** [anki_subdeck] is a local of [export] that only the loop body binds:
    [None] stands for the unbound name. *)
Definition export {U : Str.Unicode} (deck : Deck.t) : M unit :=
  let _ := {| genanki.deck_id := Deck.id deck; genanki.name := Deck.name deck;
              genanki.notes := [] |} in
  anki_model <- model ;;
  anki_subdeck <-
    for_each
      (fun (_ : option genanki.Deck) subdeck =>
         let subdeck_name := Deck.name deck +:+ "::" +:+ SubDeck.name subdeck in
         d <- add_notes anki_model (SubDeck.cards subdeck)
                {| genanki.deck_id := SubDeck.id subdeck;
                   genanki.name := subdeck_name;
                   genanki.notes := [] |} ;;
         ret (Some d))
      (Deck.sub_decks deck) None ;;
  match anki_subdeck with
  | None => raise UnboundLocalError
  | Some d =>
      write_to_file (genanki.Package_of d)
        ("dist/" +:+ Deck.file_name deck +:+ ".apkg")
  end.

(** The loop of [parse_notes] over the siblings after the heading. *)
Fixpoint parse_notes_loop (siblings : list node) (notes : list Card.t)
  : M (list Card.t) :=
  match siblings with
  | [] => ret notes
  | sibling :: rest =>
      match sibling with
      | Tag name _ =>
          if String.eqb name "h2" then ret notes
          else if negb (String.eqb name "h3") then parse_notes_loop rest notes
          else
            note <- create_note {| el := sibling; next_siblings := rest |} ;;
            parse_notes_loop rest (notes ++ [note])
      | _ => parse_notes_loop rest notes
      end
  end.

Definition parse_notes (h2 : PageElement) : M (list Card.t) :=
  parse_notes_loop (next_siblings h2) [].

Definition build_deck (soup : PageElement) : M Deck.t :=
  match find "h1" soup with
  | None => raise ValueError
  | Some h1 =>
      i <- generate_identifier ;;
      ret {| Deck.id := i; Deck.name := text (el h1); Deck.sub_decks := [] |}
  end.

Definition collect_subdeck (subdecks : list SubDeck.t) (h2 : PageElement)
  : M (list SubDeck.t) :=
  subdeck <- create_subdeck h2 ;;
  notes <- parse_notes h2 ;;
  ret (subdecks ++ [SubDeck.set_cards notes subdeck]).

Definition build_subdecks (soup : PageElement) : M (list SubDeck.t) :=
  subdecks <- for_each collect_subdeck (find_next_siblings (Some "h2") soup) [] ;;
  let h2s := find_all "h2" soup in
  for_each collect_subdeck h2s subdecks.

Definition traverse (soup : PageElement) : M Deck.t :=
  deck <- build_deck soup ;;
  echo ("Deck: " +:+ Deck.name deck) ;;;
  subdecks <- build_subdecks soup ;;
  let deck := fold_left Deck.add_subdeck subdecks deck in
  ex <- os_path_exists_dist ;;
  isd <- os_path_isdir_dist ;;
  (if negb ex || negb isd then os_mkdir_dist else ret tt) ;;;
  ret deck.

Definition call {U : Str.Unicode} (soup : PageElement) : M unit :=
  deck <- traverse soup ;;
  export deck.

(** The command and the constructor: the markdown renderer and the HTML
    parser come from outside. *)
Section Command.
Variable markdown : string -> string.
Variable html_parser : string -> list node.

Definition create_tree (content : string) : string := markdown content.

Definition init (content : string) : t :=
  let html := create_tree content in
  {| raw_contents := content; _html := html;
     soup := BeautifulSoup (html_parser html) |}.

(** [click.Path(exists=True)]: the option is refused when nothing is at the
    path, or nothing that can be read; a file and a directory both pass. *)
Definition click_path_exists (file_path : string) : M unit :=
  fun w =>
    match sources w !! file_path, unreadable w !! file_path with
    | None, None => (Raise BadParameter, w)
    | _, _ => (Ok tt, w)
    end.

(** [open(fpath)] and [file.read()]: the text of a readable file, or the
    error of the operating system or of the decoder. *)
Definition from_file (fpath : string) : M t :=
  fun w =>
    match sources w !! fpath with
    | Some content => (Ok (init content), w)
    | None =>
        match unreadable w !! fpath with
        | Some e => (Raise e, w)
        | None => (Raise FileNotFoundError, w)
        end
    end.

Definition build {U : Str.Unicode} (file_path : string) : M unit :=
  click_path_exists file_path ;;;
  builder <- from_file file_path ;;
  call (soup builder).
End Command.

End Builder.

(** ** Vocabulary of the statements *)

(** [has_tag name n]: [n] is a tag called [name], or has one below it. *)
Fixpoint has_tag (name : string) (n : node) : bool :=
  match n with
  | Tag t cs =>
      String.eqb t name
      || (fix any (l : list node) : bool :=
            match l with
            | [] => false
            | c :: r => has_tag name c || any r
            end) cs
  | _ => false
  end.

Definition any_has_tag (name : string) (l : list node) : bool :=
  existsb (has_tag name) l.

(** The world with another random source. *)
Definition reseed (e : nat -> Z) (n : nat) (w : world) : world :=
  {| dist := dist w; packages := packages w; sources := sources w;
     stdout := stdout w; entropy := e; drawn := n;
     os_open := os_open w; unreadable := unreadable w |}.

(** The file system part of the world is the same. *)
Definition same_files (w w' : world) : Prop :=
  dist w' = dist w /\ packages w' = packages w /\ sources w' = sources w /\
  os_open w' = os_open w /\ unreadable w' = unreadable w.

(** *** Content without identifiers *)

(** Front, back and tags of a card; name and cards of a sub-deck; name and
    sub-decks of a deck. *)
Definition card_view : Type := string * string * list string.
Definition subdeck_view : Type := string * list card_view.
Definition deck_view : Type := string * list subdeck_view.

Definition card_content (c : Card.t) : card_view :=
  (Card.front c, Card.back c, Card.tags c).

Definition subdeck_content (d : SubDeck.t) : subdeck_view :=
  (SubDeck.name d, List.map card_content (SubDeck.cards d)).

Definition deck_content (d : Deck.t) : deck_view :=
  (Deck.name d, List.map subdeck_content (Deck.sub_decks d)).

Definition outcome_content (r : result Deck.t) : result deck_view :=
  match r with
  | Ok d => Ok (deck_content d)
  | Raise e => Raise e
  end.

Definition note_content (n : genanki.Note) : list string * list string :=
  (genanki.fields n, genanki.tags n).

Definition package_content (p : genanki.Package)
  : list (string * list (list string * list string)) :=
  List.map (fun d => (genanki.name d, List.map note_content (genanki.notes d)))
    (genanki.decks p).

(** The cards of one section, read off the document alone: [None] when a
    card heading has no list after it. *)
Fixpoint notes_of (siblings : list node) : option (list card_view) :=
  match siblings with
  | [] => Some []
  | sibling :: rest =>
      match sibling with
      | Tag name _ =>
          if String.eqb name "h2" then Some []
          else if negb (String.eqb name "h3") then notes_of rest
          else
            match find_next_sibling "ul" {| el := sibling; next_siblings := rest |} with
            | None => None
            | Some ul =>
                match notes_of rest with
                | None => None
                | Some cs =>
                    Some ((text sibling, Builder.format_ul (BeautifulSoup [el ul]), [])
                            :: cs)
                end
            end
      | _ => notes_of rest
      end
  end.

Fixpoint subdecks_of (h2s : list PageElement) : option (list subdeck_view) :=
  match h2s with
  | [] => Some []
  | h2 :: r =>
      match notes_of (next_siblings h2) with
      | None => None
      | Some cs =>
          match subdecks_of r with
          | None => None
          | Some ds => Some ((text (el h2), cs) :: ds)
          end
      end
  end.

Definition content_of (soup : PageElement) : option deck_view :=
  match find "h1" soup with
  | None => None
  | Some h1 =>
      match subdecks_of (find_next_siblings (Some "h2") soup ++ find_all "h2" soup) with
      | None => None
      | Some ds => Some (text (el h1), ds)
      end
  end.

(** What [export] puts in the package, read off a deck's content: the last
    sub-deck alone, under the name [deck::sub-deck]. *)
Definition note_view (c : card_view) : list string * list string :=
  match c with
  | (front, back, tags) => ([front; back], tags)
  end.

Definition exported (c : deck_view)
  : option (list (string * list (list string * list string))) :=
  match last (snd c) with
  | None => None
  | Some (name, cards) =>
      Some [(fst c +:+ "::" +:+ name, List.map note_view cards)]
  end.

Definition output_path {U : Str.Unicode} (deck_name : string) : string :=
  "dist/" +:+ Str.lower (Str.replace " " "-" deck_name) +:+ ".apkg".

(** No tag of the card holds a space. *)
Definition tags_accepted (c : Card.t) : bool :=
  negb (existsb (Str.contains (ascii_of_nat 32)) (Card.tags c)).

Definition deck_tags_accepted (d : Deck.t) : bool :=
  forallb (fun s => forallb tags_accepted (SubDeck.cards s)) (Deck.sub_decks d).

(** The deck that the sub-deck loop of [export] builds for one sub-deck. *)
Definition exported_deck (m : genanki.Model) (deck_name : string)
    (s : SubDeck.t) : genanki.Deck :=
  {| genanki.deck_id := SubDeck.id s;
     genanki.name := deck_name +:+ "::" +:+ SubDeck.name s;
     genanki.notes :=
       List.map (fun c => {| genanki.model := m;
                             genanki.fields := [Card.front c; Card.back c];
                             genanki.tags := Card.tags c |}) (SubDeck.cards s) |}.

(** What the note loop of [export] leaves in a deck: the identifier and the
    name it had, and one more note per card, in order. *)
Definition with_notes (m : genanki.Model) (cards : list Card.t)
    (d : genanki.Deck) : genanki.Deck :=
  {| genanki.deck_id := genanki.deck_id d;
     genanki.name := genanki.name d;
     genanki.notes :=
       genanki.notes d ++
       List.map (fun c => {| genanki.model := m;
                             genanki.fields := [Card.front c; Card.back c];
                             genanki.tags := Card.tags c |}) cards |}.

(** *** Outlines *)

(** A card of an outline: what is inside its heading, what stands between
    the heading and its list, what is inside the list, and what stands
    after the list. *)
Record card_source : Type := mkCardSource {
  question : list node;
  before_list : list node;
  answer : list node;
  after_list : list node
}.

(** A section: what is inside its heading, what stands between the heading
    and the first card, and the cards. *)
Record section_source : Type := mkSectionSource {
  title : list node;
  after_title : list node;
  card_sources : list card_source
}.

(** The document of an outline: [lead], the deck heading, [after_deck],
    then per section its heading and, per card, the card heading and its
    list, with the fillers between them.  A filler can be empty, a line
    break as the renderer prints between two blocks, a paragraph, ... *)
Definition card_block (c : card_source) : list node :=
  Tag "h3" (question c) :: before_list c ++ Tag "ul" (answer c) :: after_list c.

Definition section_block (s : section_source) : list node :=
  Tag "h2" (title s) :: after_title s ++ flat_map card_block (card_sources s).

Definition outline (lead deck_title after_deck : list node)
    (sections : list section_source) : list node :=
  lead ++ Tag "h1" deck_title :: after_deck ++ flat_map section_block sections.

(** A filler inside a section holds no level-2 heading at any depth and no
    level-3 heading of its own. *)
Definition filler (l : list node) : Prop :=
  any_has_tag "h2" l = false /\ Forall (fun n => tag_named "h3" n = false) l.

Definition card_source_ok (c : card_source) : Prop :=
  any_has_tag "h2" (question c) = false /\
  any_has_tag "h2" (answer c) = false /\
  filler (before_list c) /\ filler (after_list c).

Definition section_ok (s : section_source) : Prop :=
  any_has_tag "h2" (title s) = false /\
  filler (after_title s) /\
  Forall card_source_ok (card_sources s).

(** *** Sample inputs *)

Definition li (s : string) : node := Tag "li" [NavigableString s].
Definition h (level : string) (s : string) : node := Tag level [NavigableString s].

(** In the sample worlds the directory [dist], once made, has no directory
    below it: a path is opened when nothing but the file name follows
    [dist/], and [FileNotFoundError] is raised when a [/] comes after. *)
Definition plain_dist (path : string) : option exn :=
  if Str.contains "/" (Str.drop 5 path) then Some FileNotFoundError else None.

Definition world0 : world :=
  {| dist := Absent; packages := ∅; sources := ∅; stdout := [];
     entropy := fun n => Z.of_nat n; drawn := 0;
     os_open := plain_dist; unreadable := ∅ |}.

Definition ready (w : world) : world :=
  {| dist := Directory; packages := packages w; sources := sources w;
     stdout := stdout w; entropy := entropy w; drawn := drawn w;
     os_open := os_open w; unreadable := unreadable w |}.

(** [<ul><li>A</li><li>B</li></ul>] *)
Definition ul_A_B : node := Tag "ul" [li "A"; li "B"].

(** [<ul><li>Top</li><li>A</li><li>B</li></ul>] *)
Definition ul_Top_A_B : node := Tag "ul" [li "Top"; li "A"; li "B"].

(** A deck heading, a card heading with nothing after it, one section. *)
Definition doc_stray_h3 : list node :=
  [h "h1" "D"; NavigableString Str.nl; h "h3" "Q"; NavigableString Str.nl;
   h "h2" "S"].

(** A card heading followed by a list without items. *)
Definition h3_empty_list : PageElement :=
  {| el := h "h3" "Q"; next_siblings := [NavigableString Str.nl; Tag "ul" []] |}.

(** An outline with two sections of two cards each, as the renderer prints
    it: a line break between two blocks and between the items of a list,
    and nothing after the last list. *)
Definition br : node := NavigableString Str.nl.

Definition sample_sections : list section_source :=
  [ {| title := [NavigableString "S1"]; after_title := [br];
       card_sources :=
         [ {| question := [NavigableString "Q1"]; before_list := [br];
              answer := [br; li "a"; br; li "b"; br]; after_list := [br] |};
           {| question := [NavigableString "Q2"]; before_list := [br];
              answer := [br; li "c"; br]; after_list := [br] |} ] |};
    {| title := [NavigableString "S2"]; after_title := [br];
       card_sources :=
         [ {| question := [NavigableString "Q3"]; before_list := [br];
              answer := [br; li "d"; br]; after_list := [br] |};
           {| question := [NavigableString "Q4"]; before_list := [br];
              answer := [br; li "e"; br; li "f"; br]; after_list := [] |} ] |} ].

Definition sample_outline : list node :=
  outline [] [NavigableString "My Deck"] [br] sample_sections.

(** The tree of the four lines [# D], [## S], [### Q], [- a]. *)
Definition doc_one_card : list node :=
  [h "h1" "D"; br; h "h2" "S"; br; h "h3" "Q"; br; Tag "ul" [br; li "a"; br]].

(** A section whose card heading has no list after it. *)
Definition doc_missing_list : list node :=
  [h "h1" "D"; NavigableString Str.nl; h "h2" "S"; NavigableString Str.nl;
   h "h3" "Q"].

(** A document without a deck heading, and a world where it can be read. *)
Definition doc_no_h1 : list node := [Tag "p" [NavigableString "text"]].

Definition world_with_notes : world :=
  {| dist := Absent; packages := ∅; sources := {[ "notes.md" := "text" ]};
     stdout := []; entropy := fun n => Z.of_nat n; drawn := 0;
     os_open := plain_dist; unreadable := ∅ |}.

Definition no_subdecks : Deck.t :=
  {| Deck.id := 1; Deck.name := "D"; Deck.sub_decks := [] |}.

Definition two_subdecks : Deck.t :=
  {| Deck.id := 1; Deck.name := "D";
     Deck.sub_decks :=
       [ {| SubDeck.id := 2; SubDeck.name := "S1";
            SubDeck.cards := [ {| Card.id := 3; Card.front := "Q1";
                                  Card.back := "A1"; Card.tags := [] |} ] |};
         {| SubDeck.id := 4; SubDeck.name := "S2";
            SubDeck.cards := [ {| Card.id := 5; Card.front := "Q2";
                                  Card.back := "A2"; Card.tags := [] |} ] |} ] |}.

(** ** Vocabulary of the further properties *)

(** The range of [generate_identifier]. *)
Definition is_identifier (i : Z) : Prop :=
  (999999999 <= i <= 1999999998)%Z.

(** The progress lines of a deck, as [traverse] prints them. *)
Definition card_line (c : Card.t) : string := "Card: " +:+ Card.front c.

Definition subdeck_lines (d : SubDeck.t) : list string :=
  ("Subdeck: " +:+ SubDeck.name d) :: List.map card_line (SubDeck.cards d).

Definition deck_lines (d : Deck.t) : list string :=
  ("Deck: " +:+ Deck.name d) :: flat_map subdeck_lines (Deck.sub_decks d).

(** The identifiers a deck holds: its own, one per sub-deck, one per card. *)
Definition subdeck_draws (d : SubDeck.t) : nat := S (length (SubDeck.cards d)).

Definition deck_draws (d : Deck.t) : nat :=
  S (list_sum (List.map subdeck_draws (Deck.sub_decks d))).

(** An identifier made from a number of the random source [e]. *)
Definition from_source (e : nat -> Z) (i : Z) : Prop :=
  exists k, i = (999999999 + e k mod 1000000000)%Z.

(** Every identifier of a deck satisfies [P], and no card has a tag. *)
Definition card_ok (P : Z -> Prop) (c : Card.t) : Prop :=
  P (Card.id c) /\ Card.tags c = [].

Definition subdeck_ok (P : Z -> Prop) (d : SubDeck.t) : Prop :=
  P (SubDeck.id d) /\ Forall (card_ok P) (SubDeck.cards d).

Definition deck_ok (P : Z -> Prop) (d : Deck.t) : Prop :=
  P (Deck.id d) /\ Forall (subdeck_ok P) (Deck.sub_decks d).

(** The siblings of a section: those before the next level-2 heading. *)
Fixpoint before_h2 (siblings : list node) : list node :=
  match siblings with
  | [] => []
  | n :: r => if tag_named "h2" n then [] else n :: before_h2 r
  end.

(** [w'] is [w] after [lines] were printed and [k] random numbers drawn,
    and nothing else. *)
Definition advanced (lines : list string) (k : nat) (w w' : world) : Prop :=
  dist w' = dist w /\ packages w' = packages w /\ sources w' = sources w /\
  entropy w' = entropy w /\
  stdout w' = stdout w ++ lines /\ drawn w' = drawn w + k /\
  os_open w' = os_open w /\ unreadable w' = unreadable w.

(** The number of tags called [name] in a tree, at any depth. *)
Fixpoint count_tag (name : string) (n : node) : nat :=
  match n with
  | Tag t cs =>
      (if String.eqb t name then 1 else 0)
      + (fix sum (l : list node) : nat :=
           match l with
           | [] => 0
           | c :: r => count_tag name c + sum r
           end) cs
  | _ => 0
  end.

Definition count_tags (name : string) (l : list node) : nat :=
  list_sum (List.map (count_tag name) l).

(** The first tag called [name] in document order, at any depth. *)
Fixpoint first_tag (name : string) (n : node) : option node :=
  match n with
  | Tag t cs =>
      if String.eqb t name then Some n
      else
        (fix first (l : list node) : option node :=
           match l with
           | [] => None
           | c :: r =>
               match first_tag name c with
               | Some found => Some found
               | None => first r
               end
           end) cs
  | _ => None
  end.

Definition first_tag_of (name : string) : list node -> option node :=
  fix first (l : list node) : option node :=
    match l with
    | [] => None
    | c :: r =>
        match first_tag name c with
        | Some found => Some found
        | None => first r
        end
    end.

(** One line of a formatted list for an item after the first. *)
Definition sub_note_line (n : node) : string :=
  Str.tab +:+ "- " +:+ text n +:+ Str.nl.

(** *** Further sample inputs *)

(** The first list of the formatter's documentation: free text, then two
    items. *)
Definition ul_text_then_items : node :=
  Tag "ul" [NavigableString "Top Level Note"; li "Sub Note"; li "Sub Note"].

(** Two card headings and one list after the second. *)
Definition h3_before_h3 : PageElement :=
  {| el := h "h3" "Q1";
     next_siblings :=
       [NavigableString Str.nl; h "h3" "Q2"; NavigableString Str.nl;
        Tag "ul" [li "a"]] |}.

(** Two deck headings, the first one inside a quotation. *)
Definition doc_two_h1 : list node :=
  [Tag "p" [NavigableString "intro"];
   Tag "blockquote" [br; h "h1" "First"; br];
   h "h1" "Second"; h "h2" "S"].

(** A section heading inside a quotation. *)
Definition doc_nested_h2 : list node :=
  [h "h1" "D";
   Tag "blockquote" [h "h2" "Inner"; h "h3" "Q"; Tag "ul" [li "a"]];
   h "h2" "Outer"].

(** A section heading followed by two cards, a paragraph, and the heading
    of the next section with a card of its own. *)
Definition section_with_two_cards : PageElement :=
  {| el := h "h2" "S1";
     next_siblings :=
       [NavigableString Str.nl; h "h3" "Q1"; Tag "ul" [li "a"];
        Tag "p" [NavigableString "note"]; h "h3" "Q2"; Tag "ul" [li "b"];
        h "h2" "S2"; h "h3" "Q3"; Tag "ul" [li "c"]] |}.

Definition section_cards : list Card.t :=
  Eval vm_compute in
    match fst (Builder.parse_notes section_with_two_cards world0) with
    | Ok notes => notes
    | Raise _ => []
    end.

(** A world whose random source always gives the same number. *)
Definition world_constant : world :=
  {| dist := Absent; packages := ∅; sources := ∅; stdout := [];
     entropy := fun _ => 7%Z; drawn := 0;
     os_open := plain_dist; unreadable := ∅ |}.

Definition constant_deck : Deck.t :=
  Eval vm_compute in
    match fst (Builder.traverse (BeautifulSoup sample_outline) world_constant) with
    | Ok d => d
    | Raise _ => no_subdecks
    end.

Definition sample_deck : Deck.t :=
  Eval vm_compute in
    match fst (Builder.traverse (BeautifulSoup sample_outline) world0) with
    | Ok d => d
    | Raise _ => no_subdecks
    end.

Definition nested_deck : Deck.t :=
  Eval vm_compute in
    match fst (Builder.traverse (BeautifulSoup doc_nested_h2) world0) with
    | Ok d => d
    | Raise _ => no_subdecks
    end.

(** * Properties *)

(** ** Text *)

Section StrFacts.

Lemma replace_char_map (a b : ascii) (s : string) :
  Str.replace (String a EmptyString) (String b EmptyString) s =
  Str.map (fun c => if Ascii.eqb c a then b else c) s.
Proof.
  unfold Str.replace.
  induction s as [|c r IH]; simpl; [reflexivity|].
  destruct (ascii_dec a c) as [->|N].
  - rewrite Ascii.eqb_refl, IH. destruct r; reflexivity.
  - apply not_eq_sym, Ascii.eqb_neq in N. rewrite N, IH. reflexivity.
Qed.

Lemma map_map (f g : ascii -> ascii) (s : string) :
  Str.map f (Str.map g s) = Str.map (fun c => f (g c)) s.
Proof. induction s; simpl; congruence. Qed.

Lemma map_length (f : ascii -> ascii) (s : string) :
  String.length (Str.map f s) = String.length s.
Proof. induction s; simpl; congruence. Qed.

Lemma map_get (f : ascii -> ascii) (s : string) (i : nat) :
  String.get i (Str.map f s) = option_map f (String.get i s).
Proof.
  revert i. induction s as [|c r IH]; intros [|i]; simpl; auto.
Qed.

Lemma ascii_lower_not_upper (c : ascii) :
  let n := nat_of_ascii (Str.ascii_lower c) in ~ (65 <= n <= 90)%nat.
Proof.
  unfold Str.ascii_lower.
  destruct ((65 <=? nat_of_ascii c)%nat && (nat_of_ascii c <=? 90)%nat) eqn:E.
  - apply andb_true_iff in E as [H1 H2].
    apply Nat.leb_le in H1, H2.
    cbv zeta. set (n := nat_of_ascii c) in *. clearbody n.
    rewrite nat_ascii_embedding by lia. lia.
  - cbv zeta. intros [H1 H2].
    apply Nat.leb_le in H1, H2. rewrite H1, H2 in E. discriminate.
Qed.

Lemma ascii_lower_not_space (c : ascii) :
  c <> ascii_of_nat 32 -> Str.ascii_lower c <> ascii_of_nat 32.
Proof.
  unfold Str.ascii_lower.
  destruct ((65 <=? nat_of_ascii c)%nat && (nat_of_ascii c <=? 90)%nat) eqn:E;
    [|auto].
  apply andb_true_iff in E as [H1 H2].
  apply Nat.leb_le in H1, H2.
  intros _ H. apply (f_equal nat_of_ascii) in H.
  set (n := nat_of_ascii c) in *. clearbody n.
  rewrite !nat_ascii_embedding in H by lia. lia.
Qed.

Lemma length_append (a b : string) :
  String.length (a +:+ b) = String.length a + String.length b.
Proof.
  induction a as [|x a IH]; [reflexivity|].
  change (S (String.length (a +:+ b)) = S (String.length a + String.length b)).
  now rewrite IH.
Qed.

Lemma drop_append (a b : string) : Str.drop (String.length a) (a +:+ b) = b.
Proof. induction a as [|x a IH]; [now destruct b|exact IH]. Qed.

Lemma substring_append (a b : string) :
  String.substring 0 (String.length a) (a +:+ b) = a.
Proof.
  induction a as [|x a IH]; [now destruct b|].
  change (String x (String.substring 0 (String.length a) (a +:+ b)) = String x a).
  now rewrite IH.
Qed.

(** [removesuffix] takes a suffix off where there is one. *)
Lemma removesuffix_append (suffix s : string) :
  Str.removesuffix suffix (s +:+ suffix) = s.
Proof.
  unfold Str.removesuffix, Str.endswith. rewrite length_append.
  replace (String.length s + String.length suffix - String.length suffix)
    with (String.length s) by lia.
  rewrite drop_append, String.eqb_refl, andb_true_r, substring_append.
  destruct (String.length suffix <=? String.length s + String.length suffix)%nat
    eqn:E; [reflexivity|].
  apply Nat.leb_gt in E. lia.
Qed.

Example replace_occurrences : Str.replace "ab" "X" "aababab" = "aXXX".
Proof. reflexivity. Qed.

Example replace_empty_pattern : Str.replace "" "-" "abc" = "-a-b-c-".
Proof. reflexivity. Qed.

Example removesuffix_once : Str.removesuffix "cc" "abccc" = "abc".
Proof. reflexivity. Qed.

Lemma append_nl_nonempty (s : string) : s +:+ Str.nl <> "".
Proof. destruct s; discriminate. Qed.

Lemma append_nonempty_l (a b : string) : a <> "" -> a +:+ b <> "".
Proof. destruct a; [congruence|discriminate]. Qed.

End StrFacts.

Lemma is_ascii_map (f : ascii -> ascii) (s : string) :
  (forall c, Str.is_ascii_char c = true -> Str.is_ascii_char (f c) = true) ->
  Str.is_ascii s = true -> Str.is_ascii (Str.map f s) = true.
Proof.
  intros Hf. induction s as [|c s IH]; [reflexivity|].
  cbn [Str.is_ascii Str.map]. intros H. apply andb_true_iff in H as [H1 H2].
  now rewrite (Hf c H1), (IH H2).
Qed.

Lemma is_ascii_char_spec (c : ascii) :
  Str.is_ascii_char c = true <-> (nat_of_ascii c < 128)%nat.
Proof. unfold Str.is_ascii_char. apply Nat.ltb_lt. Qed.

Lemma ascii_lower_ascii (c : ascii) :
  Str.is_ascii_char c = true -> Str.is_ascii_char (Str.ascii_lower c) = true.
Proof.
  intros H. unfold Str.ascii_lower.
  destruct ((65 <=? nat_of_ascii c)%nat && (nat_of_ascii c <=? 90)%nat) eqn:E;
    [|exact H].
  apply andb_true_iff in E as [H1 H2]. apply Nat.leb_le in H1, H2.
  apply is_ascii_char_spec. set (n := nat_of_ascii c) in *. clearbody n.
  rewrite nat_ascii_embedding by lia. lia.
Qed.

Lemma hyphen_for_space_ascii (c : ascii) :
  Str.is_ascii_char c = true ->
  Str.is_ascii_char (if Ascii.eqb c (ascii_of_nat 32) then ascii_of_nat 45 else c)
    = true.
Proof. intros H. now destruct (Ascii.eqb c (ascii_of_nat 32)). Qed.

(** On text made of ASCII characters [str.lower] needs no table. *)
Lemma lower_ascii {U : Str.Unicode} (s : string) :
  Str.is_ascii s = true -> Str.lower s = Str.map Str.ascii_lower s.
Proof. unfold Str.lower. now intros ->. Qed.

Lemma sanitized_ascii {U : Str.Unicode} (s : string) :
  Str.is_ascii s = true ->
  Str.lower (Str.replace " " "-" s) =
  Str.map (fun c => Str.ascii_lower
                      (if Ascii.eqb c (ascii_of_nat 32) then ascii_of_nat 45 else c)) s
  /\ Str.is_ascii (Str.lower (Str.replace " " "-" s)) = true.
Proof.
  intros H.
  change " " with (String (ascii_of_nat 32) EmptyString).
  change "-" with (String (ascii_of_nat 45) EmptyString).
  rewrite replace_char_map.
  rewrite lower_ascii by (apply is_ascii_map; [apply hyphen_for_space_ascii|exact H]).
  rewrite map_map. split; [reflexivity|].
  apply is_ascii_map; [|exact H].
  intros c Hc. now apply ascii_lower_ascii, hyphen_for_space_ascii.
Qed.

(** C9.  For every deck and whatever the Unicode tables are,
    [Deck.file_name] is the lower-case form, as [str.lower] gives it, of the
    deck name in which every space has been turned into a hyphen: no space
    is left in the text that is lower-cased.  When the name is made of ASCII
    characters, the file name is the name with every space turned into a
    hyphen and every upper-case letter into its lower-case one, character
    by character: it has the length of the name and holds no space and no
    upper-case letter.  The name [My Deck] gives [my-deck]. *)
Theorem C9_file_name_sanitized {U : Str.Unicode} (d : Deck.t) :
  Deck.file_name d =
    Str.lower
      (Str.map (fun c => if Ascii.eqb c (ascii_of_nat 32) then ascii_of_nat 45 else c)
         (Deck.name d))
  /\ Str.contains (ascii_of_nat 32)
       (Str.map (fun c => if Ascii.eqb c (ascii_of_nat 32) then ascii_of_nat 45 else c)
          (Deck.name d)) = false
  /\ (Str.is_ascii (Deck.name d) = true ->
      Deck.file_name d =
        Str.map (fun c => Str.ascii_lower
                            (if Ascii.eqb c (ascii_of_nat 32)
                             then ascii_of_nat 45 else c))
          (Deck.name d)
      /\ String.length (Deck.file_name d) = String.length (Deck.name d)
      /\ (forall i c, String.get i (Deck.file_name d) = Some c ->
            c <> ascii_of_nat 32 /\ ~ (65 <= nat_of_ascii c <= 90)%nat))
  /\ Deck.file_name {| Deck.id := Deck.id d; Deck.name := "My Deck";
                       Deck.sub_decks := Deck.sub_decks d |} = "my-deck".
Proof.
  split.
  { unfold Deck.file_name.
    change " " with (String (ascii_of_nat 32) EmptyString).
    change "-" with (String (ascii_of_nat 45) EmptyString).
    now rewrite replace_char_map. }
  split.
  { induction (Deck.name d) as [|c s IH]; [reflexivity|].
    cbn [Str.map Str.contains]. rewrite IH, orb_false_r.
    destruct (Ascii.eqb c (ascii_of_nat 32)) eqn:E; [reflexivity|exact E]. }
  split; [|reflexivity].
  intros Ha. destruct (sanitized_ascii (Deck.name d) Ha) as [E _].
  fold (Deck.file_name d) in E.
  split; [exact E|]. split; [rewrite E; apply map_length|].
  intros i c. rewrite E, map_get.
  destruct (String.get i (Deck.name d)) as [c0|]; simpl; [|discriminate].
  intros [= <-]. split.
  - apply ascii_lower_not_space.
    destruct (Ascii.eqb c0 (ascii_of_nat 32)) eqn:Ec; [discriminate|].
    intros ->. rewrite Ascii.eqb_refl in Ec. discriminate.
  - apply ascii_lower_not_upper.
Qed.

Lemma C9_file_name_sanitized_witness :
  Deck.file_name (U := Str.ascii_only) no_subdecks = "d"
  /\ String.length (Deck.file_name (U := Str.ascii_only) no_subdecks) = 1
  /\ (forall i c,
        String.get i (Deck.file_name (U := Str.ascii_only) no_subdecks) = Some c ->
        c <> ascii_of_nat 32 /\ ~ (65 <= nat_of_ascii c <= 90)%nat).
Proof.
  apply (proj1 (proj2 (proj2 (C9_file_name_sanitized (U := Str.ascii_only)
                                no_subdecks)))).
  reflexivity.
Defined.

(** ** The list formatter *)

Lemma append_assoc (a b c : string) : (a +:+ b) +:+ c = a +:+ (b +:+ c).
Proof.
  induction a as [|x a IH]; [reflexivity|].
  change (String x ((a +:+ b) +:+ c) = String x (a +:+ (b +:+ c))).
  now rewrite IH.
Qed.

Lemma append_empty_r (a : string) : a +:+ "" = a.
Proof.
  induction a as [|x a IH]; [reflexivity|].
  change (String x (a +:+ "") = String x a). now rewrite IH.
Qed.

(** The second branch of the formatter runs only on a list without items,
    and then has nothing to write. *)
Lemma format_ul_without_first_item (ul : PageElement) :
  find "li" ul = None -> Builder.format_ul ul = "".
Proof.
  unfold Builder.format_ul, find. intros H. rewrite H.
  destruct (find_all "li" ul); [reflexivity|discriminate].
Qed.

Lemma fold_left_sub_notes (subs : list string) (init : string) :
  fold_left
    (fun formatted sub_note =>
       formatted +:+ Str.tab +:+ "- " +:+ text (el sub_note) +:+ Str.nl)
    (List.filter (matches (Some "li")) (positions (List.map li subs)))
    init =
  init +:+ Str.concat (List.map (fun s => Str.tab +:+ "- " +:+ s +:+ Str.nl) subs).
Proof.
  revert init. induction subs as [|s r IH]; intros init.
  - cbn [List.map positions List.filter fold_left Str.concat].
    now rewrite append_empty_r.
  - cbn [List.map positions List.filter matches el li tag_named String.eqb
         Ascii.eqb Bool.eqb fold_left Str.concat].
    rewrite IH. change (text (li s)) with (s +:+ "").
    now rewrite append_empty_r, !append_assoc.
Qed.

(** On a list of plain items the formatter writes the first item as a line of
    its own and every later item after a tab and a dash. *)
Lemma format_ul_items (top : string) (subs : list string) :
  Builder.format_ul (BeautifulSoup [Tag "ul" (li top :: List.map li subs)]) =
  Str.removesuffix (Str.nl +:+ Str.nl +:+ Str.nl) top +:+ Str.nl +:+
  Str.concat (List.map (fun s => Str.tab +:+ "- " +:+ s +:+ Str.nl) subs).
Proof.
  unfold Builder.format_ul.
  change (find "li" (BeautifulSoup [Tag "ul" (li top :: List.map li subs)]))
    with (Some {| el := li top; next_siblings := List.map li subs |}).
  unfold find_next_siblings. cbn [next_siblings el].
  rewrite fold_left_sub_notes. change (text (li top)) with (top +:+ "").
  now rewrite append_empty_r, append_assoc.
Qed.

(** C3.  On [<ul><li>A</li><li>B</li></ul>] the formatter takes the first
    item as the top-level note and writes the second one as an indented
    sub-note: it returns [A], line break, tab, [- B], line break, and not the
    two top-level lines [A] and [B] of its documentation. *)
Theorem C3_format_ul_two_items :
  Builder.format_ul (BeautifulSoup [ul_A_B]) =
    "A" +:+ Str.nl +:+ Str.tab +:+ "- B" +:+ Str.nl
  /\ Builder.format_ul (BeautifulSoup [ul_A_B]) <>
    "A" +:+ Str.nl +:+ "B" +:+ Str.nl.
Proof. split; [reflexivity | discriminate]. Qed.

(** C4.  On [<ul><li>Top</li><li>A</li><li>B</li></ul>] the formatter
    returns [Top] as a top-level line, then [A] and [B] each after a tab and
    a dash. *)
Theorem C4_format_ul_top_and_siblings :
  Builder.format_ul (BeautifulSoup [ul_Top_A_B]) =
    "Top" +:+ Str.nl +:+ Str.tab +:+ "- A" +:+ Str.nl
          +:+ Str.tab +:+ "- B" +:+ Str.nl.
Proof. reflexivity. Qed.

(** ** The document tree *)

Section TreeFacts.

Variable name : string.

Lemma walk_cons (c : node) (r : list node) :
  walk (c :: r) = {| el := c; next_siblings := r |} :: descendants c ++ walk r.
Proof. reflexivity. Qed.

Lemma descendants_tag (t : string) (cs : list node) :
  descendants (Tag t cs) = walk cs.
Proof. reflexivity. Qed.

Lemma has_tag_tag (t : string) (cs : list node) :
  has_tag name (Tag t cs) = String.eqb t name || any_has_tag name cs.
Proof.
  reflexivity.
Qed.

Lemma find_all_soup (doc : list node) :
  find_all name (BeautifulSoup doc) = List.filter (matches (Some name)) (walk doc).
Proof. reflexivity. Qed.

(** A tree without the tag yields nothing to [find_all]. *)
Lemma find_all_absent (n : node) :
  has_tag name n = false ->
  tag_named name n = false /\
  List.filter (matches (Some name)) (descendants n) = [].
Proof.
  induction n as [s|s|t cs IH] using node_ind;
    [intros _; split; reflexivity .. |].
  rewrite has_tag_tag, descendants_tag.
  intros H. apply orb_false_iff in H as [Ht Hcs]. split; [exact Ht|].
  clear Ht. induction IH as [|c r Hc _ IHr]; [reflexivity|].
  simpl in Hcs. apply orb_false_iff in Hcs as [H1 H2].
  rewrite walk_cons. cbn [List.filter matches el].
  destruct (Hc H1) as [-> E]. rewrite List.filter_app, E, (IHr H2).
  reflexivity.
Qed.

Lemma find_all_walk_absent (l : list node) :
  any_has_tag name l = false ->
  List.filter (matches (Some name)) (walk l) = [].
Proof.
  induction l as [|c r IH]; [reflexivity|].
  intros H. simpl in H. apply orb_false_iff in H as [H1 H2].
  rewrite walk_cons. cbn [List.filter matches el].
  destruct (find_all_absent c H1) as [-> E].
  rewrite List.filter_app, E, (IH H2). reflexivity.
Qed.

Lemma find_absent (doc : list node) :
  any_has_tag name doc = false -> find name (BeautifulSoup doc) = None.
Proof.
  intros H. unfold find. rewrite find_all_soup, find_all_walk_absent; auto.
Qed.

(** A tree with the tag yields something. *)
Lemma find_all_present (n : node) (r : list node) :
  has_tag name n = true ->
  List.filter (matches (Some name))
    ({| el := n; next_siblings := r |} :: descendants n) <> [].
Proof.
  revert r. induction n as [s|s|t cs IH] using node_ind; intros r0;
    try discriminate.
  rewrite has_tag_tag, descendants_tag.
  simpl List.filter. unfold matches at 1. simpl tag_named.
  destruct (String.eqb t name); [discriminate|]. simpl orb.
  clear r0. induction IH as [|c r Hc _ IHr]; [discriminate|].
  intros H. simpl in H. apply orb_true_iff in H as [H|H].
  - rewrite walk_cons. specialize (Hc r H).
    change ({| el := c; next_siblings := r |} :: descendants c ++ walk r)
      with (({| el := c; next_siblings := r |} :: descendants c) ++ walk r).
    rewrite List.filter_app.
    destruct (List.filter _ (_ :: descendants c)); [congruence|discriminate].
  - rewrite walk_cons. specialize (IHr H).
    change ({| el := c; next_siblings := r |} :: descendants c ++ walk r)
      with (({| el := c; next_siblings := r |} :: descendants c) ++ walk r).
    rewrite List.filter_app.
    destruct (List.filter _ (walk r)); [congruence|].
    destruct (List.filter _ (_ :: descendants c)); discriminate.
Qed.

Lemma find_present (n : node) :
  has_tag name n = true -> find name (BeautifulSoup [n]) <> None.
Proof.
  intros H. unfold find. rewrite find_all_soup, walk_cons.
  change (walk []) with (@nil PageElement). rewrite app_nil_r.
  pose proof (find_all_present n [] H) as P.
  destruct (List.filter _ _); [congruence|discriminate].
Qed.

(** When the tag occurs at the top level only, [find_all] is a filter of
    the top-level elements. *)
Lemma find_all_flat (l : list node) :
  Forall (fun n => match n with
                   | Tag _ cs => any_has_tag name cs = false
                   | _ => True
                   end) l ->
  List.filter (matches (Some name)) (walk l) =
  List.filter (matches (Some name)) (positions l).
Proof.
  induction 1 as [|c r Hc _ IH]; [reflexivity|].
  rewrite walk_cons. cbn [List.filter positions]. rewrite List.filter_app, IH.
  assert (E : List.filter (matches (Some name)) (descendants c) = []).
  { destruct c as [s|s|t cs]; try reflexivity.
    rewrite descendants_tag. now apply find_all_walk_absent. }
  rewrite E. reflexivity.
Qed.

Lemma positions_app (l1 l2 : list node) :
  positions (l1 ++ l2) =
  List.map (fun e => {| el := el e; next_siblings := next_siblings e ++ l2 |})
    (positions l1) ++ positions l2.
Proof. induction l1 as [|c r IH]; simpl; [reflexivity|]. now rewrite IH. Qed.

Lemma filter_positions_none (l : list node) :
  Forall (fun n => tag_named name n = false) l ->
  List.filter (matches (Some name)) (positions l) = [].
Proof.
  induction 1 as [|c r Hc _ IH]; [reflexivity|].
  simpl. unfold matches at 1. simpl. now rewrite Hc.
Qed.

End TreeFacts.

(** ** Runs of the builder *)

Section MonadFacts.

Context {A B : Type}.

Lemma bind_ok (c : M A) (k : A -> M B) (w w' : world) (a : A) :
  c w = (Ok a, w') -> bind c k w = k a w'.
Proof. unfold bind. now intros ->. Qed.

Lemma bind_raise (c : M A) (k : A -> M B) (w w' : world) (e : exn) :
  c w = (Raise e, w') -> bind c k w = (Raise e, w').
Proof. unfold bind. now intros ->. Qed.

Lemma for_each_app (body : B -> A -> M B) (l1 l2 : list A) (s : B) (w : world) :
  for_each body (l1 ++ l2) s w =
  bind (for_each body l1 s) (for_each body l2) w.
Proof.
  revert s w. induction l1 as [|a r IH]; intros s w; simpl.
  - reflexivity.
  - unfold bind in *. destruct (body s a w) as [[s'|e] w']; [|reflexivity].
    apply IH.
Qed.

End MonadFacts.

Lemma same_files_refl (w : world) : same_files w w.
Proof. repeat split. Qed.

Lemma same_files_trans (w1 w2 w3 : world) :
  same_files w1 w2 -> same_files w2 w3 -> same_files w1 w3.
Proof. unfold same_files. intros (?&?&?&?&?) (?&?&?&?&?). repeat split; congruence. Qed.

Lemma same_files_reseed (e : nat -> Z) (n : nat) (w : world) :
  same_files w (reseed e n w).
Proof. repeat split. Qed.

(** One step of a run: the first computation of a [bind] has returned. *)
Ltac step H :=
  first [ rewrite (bind_ok _ _ _ _ _ H) | rewrite (bind_raise _ _ _ _ _ H) ];
  cbv beta.

Create HintDb builder.
#[local] Hint Resolve same_files_refl same_files_trans : builder.

Lemma generate_identifier_run (w : world) :
  exists i w',
    generate_identifier w = (Ok i, w') /\ same_files w w' /\
    (999999999 <= i <= 1999999998)%Z.
Proof.
  eexists _, _. split; [reflexivity|]. split; [repeat split|].
  pose proof (Z.mod_pos_bound (entropy w (drawn w)) 1000000000). lia.
Qed.

Lemma echo_run (line : string) (w : world) :
  exists w', echo line w = (Ok tt, w') /\ same_files w w'.
Proof. eexists. split; [reflexivity|repeat split]. Qed.

Lemma create_subdeck_run (h2 : PageElement) (w : world) :
  exists i w',
    Builder.create_subdeck h2 w =
      (Ok {| SubDeck.id := i; SubDeck.name := text (el h2); SubDeck.cards := [] |}, w')
    /\ same_files w w'.
Proof.
  unfold Builder.create_subdeck.
  destruct (generate_identifier_run w) as (i & w1 & Hg & F1 & _). step Hg.
  destruct (echo_run ("Subdeck: " +:+ text (el h2)) w1) as (w2 & He & F2).
  cbv zeta. step He. eauto with builder.
Qed.

Lemma create_note_run (h3 : PageElement) (w : world) :
  match find_next_sibling "ul" h3 with
  | None =>
      exists w', Builder.create_note h3 w = (Raise ValueError, w') /\ same_files w w'
  | Some ul =>
      exists i w',
        Builder.create_note h3 w =
          (Ok {| Card.id := i; Card.front := text (el h3);
                 Card.back := Builder.format_ul (BeautifulSoup [el ul]);
                 Card.tags := [] |}, w')
        /\ same_files w w'
  end.
Proof.
  unfold Builder.create_note.
  destruct (generate_identifier_run w) as (i & w1 & Hg & F1 & _). step Hg.
  cbv zeta. destruct (find_next_sibling "ul" h3) as [ul|].
  - destruct (echo_run ("Card: " +:+ text (el h3)) w1) as (w2 & He & F2).
    step He. eauto with builder.
  - eauto with builder.
Qed.

Section ParseNotes.

Lemma parse_notes_loop_tag (name : string) (cs rest : list node)
    (notes : list Card.t) :
  Builder.parse_notes_loop (Tag name cs :: rest) notes =
  if String.eqb name "h2" then ret notes
  else if negb (String.eqb name "h3") then Builder.parse_notes_loop rest notes
  else bind (Builder.create_note {| el := Tag name cs; next_siblings := rest |})
         (fun note => Builder.parse_notes_loop rest (notes ++ [note])).
Proof. reflexivity. Qed.

Lemma notes_of_tag (name : string) (cs rest : list node) :
  notes_of (Tag name cs :: rest) =
  if String.eqb name "h2" then Some []
  else if negb (String.eqb name "h3") then notes_of rest
  else
    match find_next_sibling "ul" {| el := Tag name cs; next_siblings := rest |} with
    | None => None
    | Some ul =>
        match notes_of rest with
        | None => None
        | Some cards =>
            Some ((text (Tag name cs), Builder.format_ul (BeautifulSoup [el ul]), [])
                    :: cards)
        end
    end.
Proof. reflexivity. Qed.

(** The note loop raises exactly when [notes_of] has no answer, and
    otherwise appends cards with the content [notes_of] gives. *)
Lemma parse_notes_loop_run (siblings : list node) :
  forall (acc : list Card.t) (w : world),
    match notes_of siblings with
    | None =>
        exists w',
          Builder.parse_notes_loop siblings acc w = (Raise ValueError, w') /\
          same_files w w'
    | Some cards =>
        exists notes w',
          Builder.parse_notes_loop siblings acc w = (Ok (acc ++ notes), w') /\
          List.map card_content notes = cards /\ same_files w w'
    end.
Proof.
  induction siblings as [|sibling rest IH]; intros acc w.
  - exists [], w. rewrite app_nil_r. auto with builder.
  - destruct sibling as [s|s|name cs]; [apply IH .. |].
    rewrite parse_notes_loop_tag, notes_of_tag.
    destruct (String.eqb name "h2").
    { exists [], w. rewrite app_nil_r. auto with builder. }
    destruct (String.eqb name "h3"); [|apply IH]. cbn [negb].
    pose proof (create_note_run {| el := Tag name cs; next_siblings := rest |} w)
      as Hn.
    cbn [el] in Hn.
    destruct (find_next_sibling "ul" _) as [ul|].
    + destruct Hn as (i & w1 & Hn & F1).
      step Hn.
      specialize (IH (acc ++ [ {| Card.id := i; Card.front := text (Tag name cs);
                                 Card.back := Builder.format_ul (BeautifulSoup [el ul]);
                                 Card.tags := [] |} ]) w1).
      destruct (notes_of rest) as [cards|].
      * destruct IH as (notes & w' & -> & <- & F2).
        eexists (_ :: notes), w'. rewrite <- app_assoc.
        split; [reflexivity|]. split; [reflexivity|eauto with builder].
      * destruct IH as (w' & -> & F2). eauto with builder.
    + destruct Hn as (w1 & Hn & F1).
      step Hn. eauto with builder.
Qed.

End ParseNotes.

Lemma collect_subdeck_run (h2 : PageElement) (acc : list SubDeck.t) (w : world) :
  match notes_of (next_siblings h2) with
  | None =>
      exists w',
        Builder.collect_subdeck acc h2 w = (Raise ValueError, w') /\ same_files w w'
  | Some cards =>
      exists subdeck w',
        Builder.collect_subdeck acc h2 w = (Ok (acc ++ [subdeck]), w') /\
        subdeck_content subdeck = (text (el h2), cards) /\ same_files w w'
  end.
Proof.
  unfold Builder.collect_subdeck.
  destruct (create_subdeck_run h2 w) as (i & w1 & Hs & F1). step Hs.
  pose proof (parse_notes_loop_run (next_siblings h2) [] w1) as Hp.
  unfold Builder.parse_notes.
  destruct (notes_of (next_siblings h2)) as [cards|].
  - destruct Hp as (notes & w2 & Hp & Hc & F2). step Hp.
    eexists _, w2. split; [reflexivity|]. split; [|eauto with builder].
    unfold subdeck_content. cbn. now rewrite Hc.
  - destruct Hp as (w2 & Hp & F2). step Hp. eauto with builder.
Qed.

Lemma collect_subdecks_run (h2s : list PageElement) :
  forall (acc : list SubDeck.t) (w : world),
    match subdecks_of h2s with
    | None =>
        exists w',
          for_each Builder.collect_subdeck h2s acc w = (Raise ValueError, w') /\
          same_files w w'
    | Some views =>
        exists subdecks w',
          for_each Builder.collect_subdeck h2s acc w = (Ok (acc ++ subdecks), w') /\
          List.map subdeck_content subdecks = views /\ same_files w w'
    end.
Proof.
  induction h2s as [|h2 r IH]; intros acc w.
  - exists [], w. rewrite app_nil_r. auto with builder.
  - cbn [subdecks_of for_each].
    pose proof (collect_subdeck_run h2 acc w) as Hc.
    destruct (notes_of (next_siblings h2)) as [cards|].
    + destruct Hc as (subdeck & w1 & Hc & Hv & F1). step Hc.
      specialize (IH (acc ++ [subdeck]) w1).
      destruct (subdecks_of r) as [views|].
      * destruct IH as (subdecks & w' & -> & <- & F2).
        exists (subdeck :: subdecks), w'. rewrite <- app_assoc.
        split; [reflexivity|]. split; [|eauto with builder].
        cbn [List.map]. now rewrite Hv.
      * destruct IH as (w' & -> & F2). eauto with builder.
    + destruct Hc as (w1 & Hc & F1). step Hc. eauto with builder.
Qed.

Lemma build_subdecks_run (soup : PageElement) (w : world) :
  match subdecks_of (find_next_siblings (Some "h2") soup ++ find_all "h2" soup) with
  | None =>
      exists w', Builder.build_subdecks soup w = (Raise ValueError, w') /\
                 same_files w w'
  | Some views =>
      exists subdecks w',
        Builder.build_subdecks soup w = (Ok subdecks, w') /\
        List.map subdeck_content subdecks = views /\ same_files w w'
  end.
Proof.
  unfold Builder.build_subdecks. rewrite <- for_each_app.
  apply (collect_subdecks_run _ [] w).
Qed.

Lemma build_deck_run (soup : PageElement) (w : world) :
  match find "h1" soup with
  | None => Builder.build_deck soup w = (Raise ValueError, w)
  | Some h1 =>
      exists i w',
        Builder.build_deck soup w =
          (Ok {| Deck.id := i; Deck.name := text (el h1); Deck.sub_decks := [] |}, w')
        /\ same_files w w'
  end.
Proof.
  unfold Builder.build_deck. destruct (find "h1" soup) as [h1|]; [|reflexivity].
  destruct (generate_identifier_run w) as (i & w1 & Hg & F1 & _). step Hg.
  eauto with builder.
Qed.

Lemma add_subdecks_content (subdecks : list SubDeck.t) (deck : Deck.t) :
  deck_content (fold_left Deck.add_subdeck subdecks deck) =
  (Deck.name deck,
   List.map subdeck_content (Deck.sub_decks deck ++ subdecks)).
Proof.
  revert deck. induction subdecks as [|s r IH]; intros deck; simpl.
  - now rewrite app_nil_r.
  - rewrite IH. simpl. now rewrite <- app_assoc.
Qed.

(** The end of [traverse]: [dist] is made when it is not there, and making
    it fails when the path is taken by a file. *)
Lemma ensure_dist_run (deck : Deck.t) (w : world) :
  (ex <- os_path_exists_dist ;;
   isd <- os_path_isdir_dist ;;
   (if negb ex || negb isd then os_mkdir_dist else ret tt) ;;;
   ret deck) w =
  match dist w with
  | Absent => (Ok deck, ready w)
  | Directory => (Ok deck, w)
  | RegularFile => (Raise FileExistsError, w)
  end.
Proof.
  unfold bind, os_path_exists_dist, os_path_isdir_dist, os_mkdir_dist, ret, ready.
  destruct (dist w) eqn:E; cbn; rewrite ?E; reflexivity.
Qed.

Lemma traverse_run (soup : PageElement) (w : world) :
  match content_of soup with
  | None =>
      exists w', Builder.traverse soup w = (Raise ValueError, w') /\ same_files w w'
  | Some view =>
      match dist w with
      | RegularFile =>
          exists w',
            Builder.traverse soup w = (Raise FileExistsError, w') /\ same_files w w'
      | _ =>
          exists deck w',
            Builder.traverse soup w = (Ok deck, w') /\
            deck_content deck = view /\ same_files (ready w) w'
      end
  end.
Proof.
  unfold Builder.traverse, content_of.
  pose proof (build_deck_run soup w) as Hd.
  destruct (find "h1" soup) as [h1|].
  2:{ step Hd. eauto with builder. }
  destruct Hd as (i & w1 & Hd & F1). step Hd.
  destruct (echo_run ("Deck: " +:+ text (el h1)) w1) as (w2 & He & F2).
  cbn [Deck.name]. step He.
  pose proof (build_subdecks_run soup w2) as Hs.
  destruct (subdecks_of _) as [views|].
  2:{ destruct Hs as (w3 & Hs & F3). step Hs. eauto with builder. }
  destruct Hs as (subdecks & w3 & Hs & Hv & F3). step Hs.
  cbv zeta. rewrite ensure_dist_run.
  assert (F : same_files w w3) by eauto with builder.
  destruct F as (Fd & Fp & Fs & Fo & Fu). rewrite Fd.
  assert (Hc : deck_content
                 (fold_left Deck.add_subdeck subdecks
                    {| Deck.id := i; Deck.name := text (el h1); Deck.sub_decks := [] |})
               = (text (el h1), views)).
  { rewrite add_subdecks_content. cbn. now rewrite Hv. }
  destruct (dist w) eqn:E.
  - eexists _, _. split; [reflexivity|]. split; [exact Hc|].
    unfold same_files, ready. cbn. auto.
  - eexists _, _. split; [reflexivity|]. split; [exact Hc|].
    unfold same_files, ready. cbn. auto.
  - eexists. split; [reflexivity|]. repeat split; congruence.
Qed.

(** *** Export *)

Lemma new_Note_run (m : genanki.Model) (fields tags : list string) (w : world) :
  new_Note m fields tags w =
  if existsb (Str.contains (ascii_of_nat 32)) tags
  then (Raise ValueError, w)
  else (Ok {| genanki.model := m; genanki.fields := fields;
              genanki.tags := tags |}, w).
Proof. unfold new_Note. now destruct (existsb _ tags). Qed.

(** The note loop returns the deck with one more note per card, or raises
    at the first card with a refused tag; the world is not touched. *)
Lemma add_notes_run (m : genanki.Model) (cards : list Card.t) :
  forall (d : genanki.Deck) (w : world),
    Builder.add_notes m cards d w =
    if forallb tags_accepted cards
    then (Ok (with_notes m cards d), w)
    else (Raise ValueError, w).
Proof.
  unfold Builder.add_notes.
  induction cards as [|c r IH]; intros d w.
  - cbn. unfold with_notes, ret. cbn. rewrite app_nil_r. now destruct d.
  - cbn [for_each forallb]. unfold bind at 1. unfold bind at 1.
    rewrite new_Note_run. unfold tags_accepted at 1.
    destruct (existsb _ (Card.tags c)); cbn [negb andb]; [reflexivity|].
    unfold ret at 1. rewrite IH.
    destruct (forallb tags_accepted r); [|reflexivity].
    f_equal. f_equal. unfold with_notes, genanki.add_note. cbn.
    now rewrite <- app_assoc.
Qed.

Lemma last_cons_default {X : Type} (x : X) (l : list X) :
  last (x :: l) = Some (default x (last l)).
Proof.
  revert x. induction l as [|y l IH]; intros x; [reflexivity|].
  rewrite last_cons_cons, IH. reflexivity.
Qed.

(** The sub-deck loop of [export]: the deck of the last sub-deck, when no
    card of any sub-deck has a refused tag. *)
Lemma export_loop_run (m : genanki.Model) (deck_name : string)
    (subdecks : list SubDeck.t) :
  forall (init : option genanki.Deck) (w : world),
    for_each
      (fun (_ : option genanki.Deck) subdeck =>
         let subdeck_name := deck_name +:+ "::" +:+ SubDeck.name subdeck in
         d <- Builder.add_notes m (SubDeck.cards subdeck)
                {| genanki.deck_id := SubDeck.id subdeck;
                   genanki.name := subdeck_name;
                   genanki.notes := [] |} ;;
         ret (Some d))
      subdecks init w =
    if forallb (fun s => forallb tags_accepted (SubDeck.cards s)) subdecks
    then (Ok (match last subdecks with
              | Some s => Some (exported_deck m deck_name s)
              | None => init
              end), w)
    else (Raise ValueError, w).
Proof.
  induction subdecks as [|s r IH]; intros init w; [reflexivity|].
  cbn [for_each forallb]. cbv zeta. unfold bind at 1. unfold bind at 1.
  rewrite add_notes_run.
  destruct (forallb tags_accepted (SubDeck.cards s)); cbn [andb]; [|reflexivity].
  unfold ret at 1. rewrite IH.
  destruct (forallb _ r); [|reflexivity].
  rewrite last_cons_default. destruct (last r); reflexivity.
Qed.

Lemma model_run (w : world) :
  exists m w', Builder.model w = (Ok m, w') /\ same_files w w'.
Proof.
  unfold Builder.model.
  destruct (generate_identifier_run w) as (i & w1 & Hg & F1 & _). step Hg.
  eauto with builder.
Qed.

Lemma open_error_same (w w' : world) (path : string) :
  same_files w w' -> open_error w' path = open_error w path.
Proof. intros (Fd & _ & _ & Fo & _). unfold open_error. now rewrite Fd, Fo. Qed.

Lemma open_error_ready_reseed (e : nat -> Z) (n : nat) (w w1 : world)
    (path : string) :
  os_open w1 = os_open w ->
  open_error (ready (reseed e n w1)) path = open_error (ready w) path.
Proof. unfold open_error. cbn. now intros ->. Qed.

Lemma exported_last (deck : Deck.t) :
  exported (deck_content deck) =
  match last (Deck.sub_decks deck) with
  | Some s =>
      Some [(Deck.name deck +:+ "::" +:+ SubDeck.name s,
             List.map note_view (List.map card_content (SubDeck.cards s)))]
  | None => None
  end.
Proof.
  unfold exported, deck_content. cbn [fst snd].
  induction (Deck.sub_decks deck) as [|x l _] using rev_ind; [reflexivity|].
  rewrite List.map_app. cbn [List.map]. now rewrite !last_snoc.
Qed.

Lemma export_eq {U : Str.Unicode} (deck : Deck.t) (w : world) :
  exists m w1,
    Builder.model w = (Ok m, w1) /\
    same_files w w1 /\
    Builder.export deck w =
    if forallb (fun s => forallb tags_accepted (SubDeck.cards s))
         (Deck.sub_decks deck)
    then match last (Deck.sub_decks deck) with
         | Some s =>
             write_to_file
               (genanki.Package_of (exported_deck m (Deck.name deck) s))
               (output_path (Deck.name deck)) w1
         | None => (Raise UnboundLocalError, w1)
         end
    else (Raise ValueError, w1).
Proof.
  unfold Builder.export. cbv zeta.
  destruct (model_run w) as (m & w1 & Hm & F1). step Hm.
  exists m, w1. split; [exact Hm|]. split; [exact F1|].
  unfold bind at 1. rewrite export_loop_run.
  destruct (forallb _ (Deck.sub_decks deck)); [|reflexivity].
  destruct (last (Deck.sub_decks deck)) as [s|]; reflexivity.
Qed.

Lemma export_run {U : Str.Unicode} (deck : Deck.t) (w : world) :
  if deck_tags_accepted deck then
    match exported (deck_content deck) with
    | None =>
        exists w',
          Builder.export deck w = (Raise UnboundLocalError, w') /\ same_files w w'
    | Some content =>
        match open_error w (output_path (Deck.name deck)) with
        | Some e =>
            exists w', Builder.export deck w = (Raise e, w') /\ same_files w w'
        | None =>
            exists p w',
              Builder.export deck w = (Ok tt, w') /\
              same_files w
                {| dist := dist w'; packages := packages w; sources := sources w';
                   stdout := stdout w'; entropy := entropy w'; drawn := drawn w';
                   os_open := os_open w'; unreadable := unreadable w' |} /\
              packages w' = <[output_path (Deck.name deck) := p]> (packages w) /\
              package_content p = content
        end
    end
  else
    exists w', Builder.export deck w = (Raise ValueError, w') /\ same_files w w'.
Proof.
  destruct (export_eq deck w) as (m & w1 & _ & F1 & E). rewrite E. clear E.
  unfold deck_tags_accepted.
  destruct (forallb _ (Deck.sub_decks deck)); [|eauto with builder].
  rewrite exported_last.
  destruct (last (Deck.sub_decks deck)) as [s|]; [|eauto with builder].
  unfold write_to_file.
  rewrite (open_error_same w w1 _ F1).
  destruct (open_error w (output_path (Deck.name deck))) as [e|];
    [eauto with builder|].
  eexists. eexists. split; [reflexivity|].
  cbn [dist packages sources stdout entropy drawn os_open unreadable].
  destruct F1 as (Fd & Fp & Fs & Fo & Fu).
  split; [repeat split; assumption|]. split; [now rewrite Fp|].
  unfold package_content, genanki.Package_of, exported_deck.
  cbn [genanki.decks List.map genanki.name genanki.notes].
  now rewrite !List.map_map.
Qed.

(** A traversed deck has no tag at all. *)
Lemma notes_of_untagged (siblings : list node) :
  forall cards,
    notes_of siblings = Some cards ->
    Forall (fun c : card_view => snd c = []) cards.
Proof.
  induction siblings as [|n r IH]; intros cards Hn.
  - injection Hn as <-. constructor.
  - destruct n as [s|s|name cs]; [now apply IH .. |].
    rewrite notes_of_tag in Hn.
    destruct (String.eqb name "h2"); [injection Hn as <-; constructor|].
    destruct (negb (String.eqb name "h3")); [now apply IH|].
    destruct (find_next_sibling "ul" _); [|discriminate].
    destruct (notes_of r) as [later|]; [|discriminate].
    injection Hn as <-. constructor; [reflexivity|now apply IH].
Qed.

Lemma subdecks_of_untagged (h2s : list PageElement) :
  forall views,
    subdecks_of h2s = Some views ->
    Forall (fun v : subdeck_view => Forall (fun c : card_view => snd c = []) (snd v))
      views.
Proof.
  induction h2s as [|h2 r IH]; intros views Hv.
  - injection Hv as <-. constructor.
  - cbn [subdecks_of] in Hv.
    destruct (notes_of (next_siblings h2)) as [cards|] eqn:Hn; [|discriminate].
    destruct (subdecks_of r) as [later|]; [|discriminate].
    injection Hv as <-. constructor; [|now apply IH].
    now apply (notes_of_untagged _ _ Hn).
Qed.

Lemma traversed_tags_accepted (soup : PageElement) (view : deck_view)
    (deck : Deck.t) :
  content_of soup = Some view ->
  deck_content deck = view ->
  deck_tags_accepted deck = true.
Proof.
  unfold content_of. intros Hc Hd.
  destruct (find "h1" soup); [|discriminate].
  destruct (subdecks_of _) as [views|] eqn:Hv; [|discriminate].
  injection Hc as <-. apply subdecks_of_untagged in Hv.
  unfold deck_content in Hd. injection Hd as _ Hm. subst views.
  unfold deck_tags_accepted. apply forallb_forall. intros s Hs.
  apply forallb_forall. intros c Hin.
  rewrite List.Forall_forall in Hv.
  specialize (Hv (subdeck_content s) (List.in_map _ _ _ Hs)).
  cbn [subdeck_content snd] in Hv. rewrite List.Forall_forall in Hv.
  specialize (Hv (card_content c) (List.in_map _ _ _ Hin)).
  unfold tags_accepted. cbn [card_content snd] in Hv. now rewrite Hv.
Qed.

Lemma call_run {U : Str.Unicode} (soup : PageElement) (w : world) :
  match content_of soup with
  | None =>
      exists w', Builder.call soup w = (Raise ValueError, w') /\ same_files w w'
  | Some view =>
      match dist w with
      | RegularFile =>
          exists w',
            Builder.call soup w = (Raise FileExistsError, w') /\ same_files w w'
      | _ =>
          match exported view with
          | None =>
              exists w',
                Builder.call soup w = (Raise UnboundLocalError, w') /\
                same_files (ready w) w'
          | Some content =>
              match open_error (ready w) (output_path (fst view)) with
              | Some e =>
                  exists w',
                    Builder.call soup w = (Raise e, w') /\ same_files (ready w) w'
              | None =>
                  exists p w',
                    Builder.call soup w = (Ok tt, w') /\
                    dist w' = Directory /\ sources w' = sources w /\
                    os_open w' = os_open w /\ unreadable w' = unreadable w /\
                    packages w' = <[output_path (fst view) := p]> (packages w) /\
                    package_content p = content
              end
          end
      end
  end.
Proof.
  unfold Builder.call.
  pose proof (traverse_run soup w) as Ht.
  destruct (content_of soup) as [view|] eqn:Hc.
  2:{ destruct Ht as (w1 & Ht & F1). step Ht. eauto with builder. }
  assert (Hgo : dist w <> RegularFile ->
    exists deck w1,
      Builder.traverse soup w = (Ok deck, w1) /\
      deck_content deck = view /\ same_files (ready w) w1).
  { destruct (dist w); [exact (fun _ => Ht) .. | congruence]. }
  destruct (dist w) eqn:E.
  3:{ destruct Ht as (w1 & Ht & F1). step Ht. eauto with builder. }
  all: destruct Hgo as (deck & w1 & Hg & Hv & F1); [congruence|].
  all: step Hg; clear Ht.
  all: pose proof (export_run deck w1) as He.
  all: rewrite (traversed_tags_accepted soup view deck Hc Hv) in He.
  all: rewrite (open_error_same _ _ _ F1) in He.
  all: subst view; cbn [deck_content fst].
  all: change (Deck.name deck, List.map subdeck_content (Deck.sub_decks deck))
         with (deck_content deck).
  all: destruct (exported (deck_content deck)) as [content|].
  all: try (destruct He as (w2 & He & F2); rewrite He; eauto with builder).
  all: destruct (open_error (ready w) (output_path (Deck.name deck))) as [e|].
  all: try (destruct He as (w2 & He & F2); rewrite He; eauto with builder).
  all: destruct He as (p & w2 & He & F2 & Hp & Hcont).
  all: exists p, w2; rewrite He.
  all: destruct F1 as (Fd & Fp & Fs & Fo & Fu), F2 as (Gd & _ & Gs & Go & Gu).
  all: cbn [ready dist packages sources os_open unreadable] in *.
  all: repeat split; try congruence.
Qed.

(** The command: the three ways it can go at the path it is given. *)
Lemma build_run {U : Str.Unicode}
    (markdown : string -> string) (html_parser : string -> list node)
    (file_path : string) (w : world) :
  Builder.build markdown html_parser file_path w =
  match sources w !! file_path with
  | Some content =>
      Builder.call (Builder.soup (Builder.init markdown html_parser content)) w
  | None =>
      match unreadable w !! file_path with
      | Some e => (Raise e, w)
      | None => (Raise BadParameter, w)
      end
  end.
Proof.
  unfold Builder.build, Builder.click_path_exists, Builder.from_file, bind.
  destruct (sources w !! file_path) as [content|] eqn:Es.
  - now rewrite Es.
  - destruct (unreadable w !! file_path) as [e|] eqn:Eu; [|reflexivity].
    now rewrite Es, Eu.
Qed.

(** ** Properties of runs *)

(** C6.  When the parsed document has no level-1 heading anywhere,
    [build_deck] raises [ValueError] without building a deck, and the error
    goes up unchanged through [traverse], the builder call and the [build]
    command; nothing is printed, drawn or written on the way. *)
Theorem C6_missing_h1_aborts {U : Str.Unicode}
    (markdown : string -> string) (html_parser : string -> list node)
    (file_path content : string) (w : world) :
  sources w !! file_path = Some content ->
  any_has_tag "h1" (html_parser (markdown content)) = false ->
  Builder.build_deck (Builder.soup (Builder.init markdown html_parser content)) w
    = (Raise ValueError, w) /\
  Builder.traverse (Builder.soup (Builder.init markdown html_parser content)) w
    = (Raise ValueError, w) /\
  Builder.call (Builder.soup (Builder.init markdown html_parser content)) w
    = (Raise ValueError, w) /\
  Builder.build markdown html_parser file_path w = (Raise ValueError, w).
Proof.
  intros Hsrc Hno. cbn [Builder.init Builder.soup Builder.create_tree].
  set (soup := BeautifulSoup (html_parser (markdown content))).
  assert (Hd : Builder.build_deck soup w = (Raise ValueError, w)).
  { pose proof (build_deck_run soup w) as H.
    unfold soup in *. now rewrite (find_absent "h1" _ Hno) in H. }
  assert (Ht : Builder.traverse soup w = (Raise ValueError, w)).
  { unfold Builder.traverse. now step Hd. }
  assert (Hc : Builder.call soup w = (Raise ValueError, w)).
  { unfold Builder.call. now step Ht. }
  repeat split; try assumption.
  rewrite build_run, Hsrc. exact Hc.
Qed.

Lemma C6_missing_h1_aborts_witness :
  Builder.build_deck (BeautifulSoup doc_no_h1) world_with_notes
    = (Raise ValueError, world_with_notes) /\
  Builder.traverse (BeautifulSoup doc_no_h1) world_with_notes
    = (Raise ValueError, world_with_notes) /\
  Builder.call (U := Str.ascii_only) (BeautifulSoup doc_no_h1) world_with_notes
    = (Raise ValueError, world_with_notes) /\
  Builder.build (U := Str.ascii_only) (fun s => s) (fun _ => doc_no_h1)
    "notes.md" world_with_notes
    = (Raise ValueError, world_with_notes).
Proof.
  apply (C6_missing_h1_aborts (U := Str.ascii_only) (fun s => s) (fun _ => doc_no_h1)
           "notes.md" "text" world_with_notes).
  - reflexivity.
  - reflexivity.
Defined.

(** C10.  A deck without sub-decks makes [export] raise [UnboundLocalError]:
    the loop never binds the deck it hands to the package writer, and the
    error comes before any file is written. *)
Theorem C10_export_without_subdecks {U : Str.Unicode} (deck : Deck.t) (w : world) :
  Deck.sub_decks deck = [] ->
  exists w',
    Builder.export deck w = (Raise UnboundLocalError, w') /\
    packages w' = packages w /\ dist w' = dist w.
Proof.
  intros Hnil. pose proof (export_run deck w) as H.
  unfold deck_tags_accepted, exported, deck_content in H.
  rewrite Hnil in H. cbn in H.
  destruct H as (w' & H & Fd & Fp & _). eauto.
Qed.

Lemma C10_export_without_subdecks_witness :
  exists w',
    Builder.export (U := Str.ascii_only) no_subdecks world0
      = (Raise UnboundLocalError, w') /\
    packages w' = packages world0 /\ dist w' = dist world0.
Proof.
  apply (C10_export_without_subdecks (U := Str.ascii_only) no_subdecks world0).
  reflexivity.
Defined.

(** The same failure seen from the document: a deck heading and no section
    heading. *)
Lemma call_without_h2 {U : Str.Unicode} (doc : list node) (w : world) :
  any_has_tag "h1" doc = true ->
  any_has_tag "h2" doc = false ->
  dist w <> RegularFile ->
  exists w',
    Builder.call (BeautifulSoup doc) w = (Raise UnboundLocalError, w') /\
    packages w' = packages w.
Proof.
  intros H1 H2 Hd. pose proof (call_run (BeautifulSoup doc) w) as H.
  unfold content_of in H.
  assert (E : find_all "h2" (BeautifulSoup doc) = []).
  { rewrite find_all_soup. now apply find_all_walk_absent. }
  rewrite E in H. cbn [find_next_siblings BeautifulSoup next_siblings positions
                       List.filter app subdecks_of] in H.
  destruct (find "h1" (BeautifulSoup doc)) as [h1|] eqn:Eh.
  - cbn in H. destruct (dist w); [| |congruence];
      destruct H as (w' & H & _ & Fp & _); eauto.
  - exfalso. unfold find in Eh. rewrite find_all_soup in Eh.
    clear -H1 Eh. induction doc as [|c r IH]; [discriminate|].
    simpl in H1. rewrite walk_cons in Eh.
    change ({| el := c; next_siblings := r |} :: descendants c ++ walk r)
      with (({| el := c; next_siblings := r |} :: descendants c) ++ walk r) in Eh.
    rewrite List.filter_app in Eh.
    apply orb_true_iff in H1 as [H1|H1].
    + pose proof (find_all_present "h1" c r H1) as P.
      destruct (List.filter _ (_ :: descendants c)); [congruence|discriminate].
    + destruct (List.filter _ (_ :: descendants c)); [auto|discriminate].
Qed.

(** C1.  A deck with the sub-decks [S1] and [S2], one card each, is exported
    as a package that holds the deck [D::S2] with the card of [S2] only:
    [S1] and its card are not in the file. *)
Theorem C1_export_keeps_last_subdeck_only {U : Str.Unicode} :
  fst (Builder.export two_subdecks (ready world0)) = Ok tt /\
  map_to_list (package_content <$> packages (snd (Builder.export two_subdecks (ready world0))))
    = [("dist/d.apkg", [("D::S2", [(["Q2"; "A2"], [])])])].
Proof. split; vm_compute; reflexivity. Qed.

(** *** Card headings without a list *)

Lemma notes_of_missing_list (pre q post : list node) :
  Forall (fun n => tag_named "h2" n = false) pre ->
  Forall (fun n => tag_named "ul" n = false) post ->
  notes_of (pre ++ Tag "h3" q :: post) = None.
Proof.
  intros Hpre Hpost. induction Hpre as [|c r Hc _ IH].
  - cbn [app]. rewrite notes_of_tag. cbn [String.eqb Ascii.eqb Bool.eqb negb].
    unfold find_next_sibling, find_next_siblings. cbn [next_siblings].
    now rewrite filter_positions_none.
  - cbn [app]. destruct c as [s|s|name cs]; [exact IH .. |].
    rewrite notes_of_tag. cbn [tag_named] in Hc. rewrite Hc.
    destruct (negb (String.eqb name "h3")); [exact IH|].
    destruct (find_next_sibling "ul" _); [|reflexivity].
    now rewrite IH.
Qed.

Lemma subdecks_of_none (h2 : PageElement) (h2s : list PageElement) :
  In h2 h2s -> notes_of (next_siblings h2) = None -> subdecks_of h2s = None.
Proof.
  intros Hin Hn. induction h2s as [|x r IH]; [contradiction|].
  cbn [subdecks_of]. destruct Hin as [->|Hin].
  - now rewrite Hn.
  - rewrite (IH Hin). now destruct (notes_of (next_siblings x)).
Qed.

(** C5 (as amended).  When some level-2 heading of the document is followed,
    before the next level-2 heading, by a level-3 heading with no list among
    the siblings after it, [create_note] raises [ValueError] on that heading
    and the whole run raises [ValueError]: no package is written and [dist]
    is not created. *)
Theorem C5_card_heading_without_list_aborts {U : Str.Unicode}
    (doc : list node) (h2 : PageElement) (pre q post : list node) (w : world) :
  In h2 (find_all "h2" (BeautifulSoup doc)) ->
  next_siblings h2 = pre ++ Tag "h3" q :: post ->
  Forall (fun n => tag_named "h2" n = false) pre ->
  Forall (fun n => tag_named "ul" n = false) post ->
  (exists w1,
     Builder.create_note {| el := Tag "h3" q; next_siblings := post |} w
       = (Raise ValueError, w1)) /\
  exists w',
    Builder.call (BeautifulSoup doc) w = (Raise ValueError, w') /\
    packages w' = packages w /\ dist w' = dist w.
Proof.
  intros Hin Hsib Hpre Hpost. split.
  - pose proof (create_note_run {| el := Tag "h3" q; next_siblings := post |} w) as H.
    unfold find_next_sibling, find_next_siblings in H. cbn [next_siblings] in H.
    rewrite filter_positions_none in H by assumption.
    destruct H as (w1 & H & _). eauto.
  - pose proof (call_run (BeautifulSoup doc) w) as H.
    assert (E : content_of (BeautifulSoup doc) = None).
    { unfold content_of. destruct (find "h1" _); [|reflexivity].
      rewrite (subdecks_of_none h2); [reflexivity| |].
      - apply in_or_app. now right.
      - rewrite Hsib. now apply notes_of_missing_list. }
    rewrite E in H. destruct H as (w' & H & Fd & Fp & _). eauto.
Qed.

Lemma C5_card_heading_without_list_aborts_witness :
  (exists w1,
     Builder.create_note {| el := Tag "h3" [NavigableString "Q"]; next_siblings := [] |}
       world0 = (Raise ValueError, w1)) /\
  exists w',
    Builder.call (U := Str.ascii_only) (BeautifulSoup doc_missing_list) world0
      = (Raise ValueError, w') /\
    packages w' = packages world0 /\ dist w' = dist world0.
Proof.
  apply (C5_card_heading_without_list_aborts (U := Str.ascii_only) doc_missing_list
           {| el := h "h2" "S";
              next_siblings := [NavigableString Str.nl; h "h3" "Q"] |}
           [NavigableString Str.nl] [NavigableString "Q"] [] world0).
  - left. reflexivity.
  - reflexivity.
  - repeat constructor.
  - constructor.
Defined.

(** C5 (as stated) fails: the document [doc_stray_h3] has a level-3 heading
    with no list after it, placed before the only level-2 heading; the run
    ends without an error and writes the package. *)
Lemma C5_stray_heading_is_exported :
  In {| el := h "h3" "Q"; next_siblings := [NavigableString Str.nl; h "h2" "S"] |}
     (find_all "h3" (BeautifulSoup doc_stray_h3)) /\
  find_next_sibling "ul"
    {| el := h "h3" "Q"; next_siblings := [NavigableString Str.nl; h "h2" "S"] |}
    = None /\
  forall U : Str.Unicode,
    fst (Builder.call (BeautifulSoup doc_stray_h3) world0) = Ok tt /\
    map_to_list (package_content <$>
                   packages (snd (Builder.call (BeautifulSoup doc_stray_h3) world0)))
      = [("dist/d.apkg", [("D::S", [])])].
Proof.
  split; [left; reflexivity|]. split; [reflexivity|].
  intros U. split; vm_compute; reflexivity.
Qed.

(** *** The back of a card *)

Lemma fold_left_append_nonempty {X : Type} (f : X -> string) (l : list X)
    (init : string) :
  init <> "" -> fold_left (fun acc x => acc +:+ f x) l init <> "".
Proof.
  revert init. induction l as [|x r IH]; intros init Hi; [exact Hi|].
  cbn [fold_left]. apply IH. now apply append_nonempty_l.
Qed.

Lemma format_ul_empty_iff (n : node) :
  if has_tag "li" n
  then Builder.format_ul (BeautifulSoup [n]) <> ""
  else Builder.format_ul (BeautifulSoup [n]) = "".
Proof.
  unfold Builder.format_ul. destruct (has_tag "li" n) eqn:E.
  - pose proof (find_present "li" n E) as P.
    destruct (find "li" (BeautifulSoup [n])) as [top|]; [|congruence].
    apply (fold_left_append_nonempty
             (fun sub_note => Str.tab +:+ "- " +:+ text (el sub_note) +:+ Str.nl)).
    apply append_nl_nonempty.
  - assert (Ha : any_has_tag "li" [n] = false) by (cbn; now rewrite E).
    rewrite (find_absent "li" [n] Ha).
    rewrite find_all_soup, (find_all_walk_absent "li" [n] Ha). reflexivity.
Qed.

(** C7 (as amended).  [create_note] raises [ValueError] when no list follows
    the heading.  When one does, the card is created with the heading text
    as its front, and its back is non-empty exactly when the list holds an
    item: a list without items gives the empty back. *)
Theorem C7_back_nonempty_when_list_has_items (h3 : PageElement) (w : world) :
  match find_next_sibling "ul" h3 with
  | None => fst (Builder.create_note h3 w) = Raise ValueError
  | Some ul =>
      exists card,
        fst (Builder.create_note h3 w) = Ok card /\
        Card.front card = text (el h3) /\
        Card.back card = Builder.format_ul (BeautifulSoup [el ul]) /\
        if has_tag "li" (el ul) then Card.back card <> "" else Card.back card = ""
  end.
Proof.
  pose proof (create_note_run h3 w) as H.
  destruct (find_next_sibling "ul" h3) as [ul|].
  - destruct H as (i & w' & -> & _). eexists. split; [reflexivity|].
    cbn [Card.front Card.back]. do 2 (split; [reflexivity|]).
    apply format_ul_empty_iff.
  - destruct H as (w' & -> & _). reflexivity.
Qed.

(** C7 (as stated) fails: after the heading of [h3_empty_list] comes a list
    without items; the card is created and its back is empty. *)
Lemma C7_empty_list_gives_empty_back :
  find_next_sibling "ul" h3_empty_list
    = Some {| el := Tag "ul" []; next_siblings := [] |} /\
  exists card,
    fst (Builder.create_note h3_empty_list world0) = Ok card /\
    Card.back card = "".
Proof. split; [reflexivity|]. eexists. split; reflexivity. Qed.

(** *** Independence of the identifiers *)

(** C8.  Run the builder on a document, then run it again on the same
    document in the world the first run left, with any random source
    whatever.  Both runs end the same way (the same error, or both without
    one), [traverse] gives decks with the same name, the same sub-deck names
    and the same card fronts, backs and tags in the same order, and the
    package files hold the same deck names and note fields after the second
    run as after the first. *)
Theorem C8_structure_independent_of_identifiers {U : Str.Unicode}
    (doc : list node) (w : world) (e : nat -> Z) (n : nat) :
  outcome_content (fst (Builder.traverse (BeautifulSoup doc) w)) =
  outcome_content
    (fst (Builder.traverse (BeautifulSoup doc)
            (reseed e n (snd (Builder.call (BeautifulSoup doc) w)))))
  /\ fst (Builder.call (BeautifulSoup doc) w) =
     fst (Builder.call (BeautifulSoup doc)
            (reseed e n (snd (Builder.call (BeautifulSoup doc) w))))
  /\ package_content <$> packages (snd (Builder.call (BeautifulSoup doc) w)) =
     package_content <$>
       packages (snd (Builder.call (BeautifulSoup doc)
                        (reseed e n (snd (Builder.call (BeautifulSoup doc) w))))).
Proof.
  set (soup := BeautifulSoup doc).
  pose proof (call_run soup w) as Hc1.
  pose proof (traverse_run soup w) as Ht1.
  destruct (Builder.call soup w) as [r1 w1] eqn:E1. cbn [fst snd].
  pose proof (call_run soup (reseed e n w1)) as Hc2.
  pose proof (traverse_run soup (reseed e n w1)) as Ht2.
  pose proof (open_error_ready_reseed e n w w1) as Ho.
  change (dist (reseed e n w1)) with (dist w1) in Hc2, Ht2.
  change (packages (reseed e n w1)) with (packages w1) in Hc2.
  destruct (content_of soup) as [view|].
  2:{ destruct Hc1 as (? & [= -> ->] & F1), Ht1 as (? & -> & _).
      destruct Hc2 as (? & -> & F2), Ht2 as (? & -> & _). cbn.
      destruct F2 as (_ & Fp2 & _). cbn in Fp2. rewrite Fp2. auto. }
  destruct (dist w) eqn:Ed.
  3:{ destruct Hc1 as (? & [= -> ->] & (Fd & _)), Ht1 as (? & -> & _).
      rewrite Fd, Ed in Hc2, Ht2.
      destruct Hc2 as (? & -> & F2), Ht2 as (? & -> & _). cbn.
      destruct F2 as (_ & Fp2 & _). cbn in Fp2. rewrite Fp2. auto. }
  all: destruct Ht1 as (d1 & ? & -> & Hv1 & _); cbn [fst outcome_content].
  all: destruct (exported view) as [content|].
  all: try (destruct Hc1 as (? & [= -> ->] & (Fd & _)); cbn [ready dist] in Fd;
            rewrite Fd in Hc2, Ht2;
            destruct Hc2 as (? & -> & (_ & Fp2 & _));
            destruct Ht2 as (d2 & ? & -> & Hv2 & _);
            cbn in *; rewrite Fp2; repeat split; congruence).
  all: destruct (open_error (ready w) (output_path (fst view))) as [e0|] eqn:Eo.
  all: try (destruct Hc1 as (? & [= -> ->] & (Fd & _ & _ & Fo & _));
            cbn [ready dist os_open] in Fd, Fo;
            rewrite Fd, (Ho _ Fo), Eo in Hc2; rewrite Fd in Ht2;
            destruct Hc2 as (? & -> & (_ & Fp2 & _));
            destruct Ht2 as (d2 & ? & -> & Hv2 & _);
            cbn in *; rewrite Fp2; repeat split; congruence).
  all: destruct Hc1 as (p1 & ? & [= -> ->] & Fd & _ & Fo & _ & Fp & Hp1).
  all: rewrite Fd, (Ho _ Fo), Eo in Hc2; rewrite Fd in Ht2.
  all: destruct Hc2 as (p2 & ? & -> & _ & _ & _ & _ & Fp2 & Hp2).
  all: destruct Ht2 as (d2 & ? & -> & Hv2 & _); cbn.
  all: rewrite Fp2, Fp, insert_insert_eq, !fmap_insert.
  all: repeat split; congruence.
Qed.

(** *** Outlines *)

(** Brings nested [++] to the right and lets the head of a list show. *)
Ltac flatten := repeat (progress cbn [app] || rewrite <- app_assoc).

Lemma filter_positions_skip (name : string) (l1 l2 : list node) :
  Forall (fun n => tag_named name n = false) l1 ->
  List.filter (matches (Some name)) (positions (l1 ++ l2)) =
  List.filter (matches (Some name)) (positions l2).
Proof.
  induction 1 as [|c r Hc _ IH]; [reflexivity|].
  cbn [app positions List.filter matches el]. now rewrite Hc.
Qed.

Lemma filter_walk_skip (name : string) (pre l : list node) :
  any_has_tag name pre = false ->
  List.filter (matches (Some name)) (walk (pre ++ l)) =
  List.filter (matches (Some name)) (walk l).
Proof.
  induction pre as [|c r IH]; [reflexivity|].
  intros H. simpl in H. apply orb_false_iff in H as [H1 H2].
  cbn [app]. rewrite walk_cons. cbn [List.filter matches el].
  destruct (find_all_absent name c H1) as [-> E].
  rewrite List.filter_app, E. cbn [app]. now apply IH.
Qed.

Lemma find_first_top_level (name : string) (pre cs rest : list node) :
  any_has_tag name pre = false ->
  find name (BeautifulSoup (pre ++ Tag name cs :: rest)) =
  Some {| el := Tag name cs; next_siblings := rest |}.
Proof.
  intros Hpre. unfold find.
  rewrite find_all_soup, filter_walk_skip by assumption.
  rewrite walk_cons. cbn [List.filter matches el tag_named].
  now rewrite String.eqb_refl.
Qed.

Lemma any_has_tag_cons (name : string) (c : node) (r : list node) :
  any_has_tag name (c :: r) = has_tag name c || any_has_tag name r.
Proof. reflexivity. Qed.

Lemma any_has_tag_app (name : string) (l1 l2 : list node) :
  any_has_tag name (l1 ++ l2) = any_has_tag name l1 || any_has_tag name l2.
Proof. apply existsb_app. Qed.

Lemma any_has_tag_top (name : string) (l : list node) :
  any_has_tag name l = false -> Forall (fun n => tag_named name n = false) l.
Proof.
  induction l as [|c r IH]; [constructor|].
  rewrite any_has_tag_cons. intros H. apply orb_false_iff in H as [H1 H2].
  apply Forall_cons. split; [|now apply IH].
  now destruct (find_all_absent name c H1).
Qed.

(** A filler adds no card and ends no section. *)
Lemma notes_of_filler (gap l : list node) :
  filler gap -> notes_of (gap ++ l) = notes_of l.
Proof.
  intros [H2 H3]. apply any_has_tag_top in H2.
  induction gap as [|c r IH]; [reflexivity|].
  apply Forall_cons in H2 as [A2 B2]. apply Forall_cons in H3 as [A3 B3].
  cbn [app]. destruct c as [s|s|t cs]; [exact (IH B2 B3) .. |].
  rewrite notes_of_tag. cbn [tag_named] in A2, A3. rewrite A2, A3.
  exact (IH B2 B3).
Qed.

(** A tag called [name] among the later siblings is enough for
    [find_next_sibling] to find one. *)
Lemma find_next_sibling_exists (name : string) (e : node)
    (pre cs post : list node) :
  exists found,
    find_next_sibling name
      {| el := e; next_siblings := pre ++ Tag name cs :: post |} = Some found.
Proof.
  unfold find_next_sibling, find_next_siblings. cbn [next_siblings].
  induction pre as [|c r IH]; cbn [app positions List.filter].
  - cbn [matches el tag_named]. rewrite String.eqb_refl. eauto.
  - destruct (matches (Some name) _); [eauto|exact IH].
Qed.

Lemma notes_of_sections_start (sections : list section_source) :
  notes_of (flat_map section_block sections) = Some [].
Proof. destruct sections; reflexivity. Qed.

(** The cards of a section, when what follows the section starts another
    one or is the end of the document: one card per card heading. *)
Lemma notes_of_cards (cards : list card_source) (rest : list node) :
  notes_of rest = Some [] ->
  Forall card_source_ok cards ->
  exists views,
    notes_of (flat_map card_block cards ++ rest) = Some views /\
    length views = length cards.
Proof.
  intros Hrest.
  induction 1 as [|c r (Hq & Ha & Hb & Hl) _ (views & IH & Hlen)].
  - exists []. split; [exact Hrest|reflexivity].
  - cbn [flat_map]. unfold card_block at 1. flatten.
    rewrite notes_of_tag. cbn [String.eqb Ascii.eqb Bool.eqb negb].
    destruct (find_next_sibling_exists "ul" (Tag "h3" (question c))
                (before_list c) (answer c)
                (after_list c ++ flat_map card_block r ++ rest)) as (ul & ->).
    rewrite (notes_of_filler _ _ Hb), notes_of_tag.
    cbn [String.eqb Ascii.eqb Bool.eqb negb].
    rewrite (notes_of_filler _ _ Hl), IH.
    eexists. split; [reflexivity|]. cbn [length]. now rewrite Hlen.
Qed.

Lemma card_blocks_no_h2 (cards : list card_source) :
  Forall card_source_ok cards ->
  any_has_tag "h2" (flat_map card_block cards) = false.
Proof.
  induction 1 as [|c r (Hq & Ha & (Hb & _) & (Hl & _)) _ IH]; [reflexivity|].
  cbn [flat_map]. unfold card_block at 1.
  rewrite any_has_tag_app, any_has_tag_cons, has_tag_tag, any_has_tag_app,
    any_has_tag_cons, has_tag_tag, Hq, Ha, Hb, Hl, IH.
  reflexivity.
Qed.

(** One sub-deck per section, named after the section heading, with one
    card per card heading. *)
Lemma subdecks_of_sections (sections : list section_source) :
  Forall section_ok sections ->
  exists views,
    subdecks_of
      (List.filter (matches (Some "h2")) (walk (flat_map section_block sections)))
      = Some views /\
    List.map fst views = List.map (fun s => text (Tag "h2" (title s))) sections /\
    List.map (fun v : subdeck_view => length (snd v)) views =
      List.map (fun s => length (card_sources s)) sections.
Proof.
  induction 1 as [|s r (Ht & Hf & Hc) _ (views & IH & Hn & Hl)].
  - exists []. repeat split.
  - cbn [flat_map]. unfold section_block at 1. flatten.
    rewrite walk_cons.
    cbn [List.filter matches el tag_named String.eqb Ascii.eqb Bool.eqb].
    rewrite List.filter_app, descendants_tag, (find_all_walk_absent "h2" _ Ht).
    cbn [app].
    rewrite (filter_walk_skip "h2" (after_title s)) by apply Hf.
    rewrite (filter_walk_skip "h2" (flat_map card_block (card_sources s)))
      by now apply card_blocks_no_h2.
    cbn [subdecks_of next_siblings el].
    rewrite (notes_of_filler _ _ Hf).
    destruct (notes_of_cards (card_sources s) (flat_map section_block r)
                (notes_of_sections_start r) Hc) as (cards & -> & Hlen).
    rewrite IH. eexists. split; [reflexivity|].
    cbn [List.map fst snd]. rewrite Hn, Hl, Hlen. auto.
Qed.

Lemma outline_content (lead deck_title after_deck : list node)
    (sections : list section_source) :
  any_has_tag "h1" lead = false ->
  any_has_tag "h2" lead = false ->
  any_has_tag "h2" deck_title = false ->
  any_has_tag "h2" after_deck = false ->
  Forall section_ok sections ->
  exists views,
    content_of (BeautifulSoup (outline lead deck_title after_deck sections)) =
      Some (text (Tag "h1" deck_title), views) /\
    List.map fst views = List.map (fun s => text (Tag "h2" (title s))) sections /\
    List.map (fun v : subdeck_view => length (snd v)) views =
      List.map (fun s => length (card_sources s)) sections.
Proof.
  intros H1 H2 Ht Ha Hs. unfold content_of, outline.
  rewrite (find_first_top_level "h1") by exact H1. cbn [el].
  rewrite find_all_soup.
  rewrite (filter_walk_skip "h2" lead) by exact H2.
  rewrite walk_cons.
  cbn [List.filter matches el tag_named String.eqb Ascii.eqb Bool.eqb].
  rewrite List.filter_app, descendants_tag, (find_all_walk_absent "h2" _ Ht).
  cbn [app].
  rewrite (filter_walk_skip "h2" after_deck) by exact Ha.
  cbn [find_next_siblings BeautifulSoup next_siblings positions List.filter app].
  destruct (subdecks_of_sections sections Hs) as (views & -> & Hn & Hl). eauto.
Qed.

(** The tree of the four lines [# D], [## S], [### Q], [- a] is an outline:
    it ends in the list of its last card. *)
Lemma doc_one_card_outline :
  doc_one_card =
  outline [] [NavigableString "D"] [br]
    [ {| title := [NavigableString "S"]; after_title := [br];
         card_sources :=
           [ {| question := [NavigableString "Q"]; before_list := [br];
                answer := [br; li "a"; br]; after_list := [] |} ] |} ].
Proof. reflexivity. Qed.

(** C2.  Take a document whose first level-1 heading stands at top level,
    followed by [N] sections: a level-2 heading and then [M] level-3
    headings, each with a list after it, all at top level.  Anything can
    stand before the deck heading (but no level-1 or level-2 heading),
    between two blocks and after the last list (text, line breaks,
    paragraphs, further lists: anything but a level-2 heading, at any depth,
    or a level-3 heading of its own), and inside the headings and lists
    (anything but a level-2 heading).  Then [traverse] returns a deck named
    after the level-1 heading with exactly [N] sub-decks, one per level-2
    heading, in order and without repeats, and every sub-deck has exactly
    [M] cards.  ([dist] must not be an ordinary file, or [traverse] cannot
    make the directory.) *)
Theorem C2_outline_subdecks_and_cards
    (lead deck_title after_deck : list node) (sections : list section_source)
    (N M : nat) (w : world) :
  any_has_tag "h1" lead = false ->
  any_has_tag "h2" lead = false ->
  any_has_tag "h2" deck_title = false ->
  any_has_tag "h2" after_deck = false ->
  Forall section_ok sections ->
  length sections = N ->
  Forall (fun s => length (card_sources s) = M) sections ->
  dist w <> RegularFile ->
  exists deck w',
    Builder.traverse
      (BeautifulSoup (outline lead deck_title after_deck sections)) w
      = (Ok deck, w') /\
    Deck.name deck = text (Tag "h1" deck_title) /\
    length (Deck.sub_decks deck) = N /\
    List.map SubDeck.name (Deck.sub_decks deck) =
      List.map (fun s => text (Tag "h2" (title s))) sections /\
    Forall (fun d => length (SubDeck.cards d) = M) (Deck.sub_decks deck).
Proof.
  intros H1 H2 Ht Ha Hs HN HM Hd.
  set (soup := BeautifulSoup (outline lead deck_title after_deck sections)).
  pose proof (traverse_run soup w) as H.
  destruct (outline_content lead deck_title after_deck sections H1 H2 Ht Ha Hs)
    as (views & Hc & Hnames & Hlens).
  fold soup in Hc. rewrite Hc in H.
  assert (Hok : exists deck w',
            Builder.traverse soup w = (Ok deck, w') /\
            deck_content deck = (text (Tag "h1" deck_title), views)).
  { destruct (dist w); [| |congruence];
      destruct H as (deck & w' & H & Hv & _); eauto. }
  destruct Hok as (deck & w' & Hrun & Hv). exists deck, w'.
  split; [exact Hrun|]. unfold deck_content in Hv.
  injection Hv as Hname Hsubs. split; [exact Hname|].
  assert (Hlen : length (Deck.sub_decks deck) = length sections).
  { apply (f_equal (@length _)) in Hnames. rewrite !List.length_map in Hnames.
    apply (f_equal (@length _)) in Hsubs. rewrite List.length_map in Hsubs.
    exact (eq_trans Hsubs Hnames). }
  split; [congruence|]. split.
  - rewrite <- Hnames, <- Hsubs, List.map_map. reflexivity.
  - rewrite <- Hsubs, List.map_map in Hlens.
    cbn [subdeck_content snd] in Hlens.
    apply List.Forall_forall. intros d Hin.
    assert (Hd' : In (length (SubDeck.cards d))
                    (List.map (fun s => length (card_sources s)) sections)).
    { rewrite <- Hlens.
      erewrite List.map_ext by (intros; apply List.length_map).
      apply (List.in_map (fun x => length (SubDeck.cards x))), Hin. }
    apply List.in_map_iff in Hd' as (s & <- & Hs').
    rewrite List.Forall_forall in HM. now apply HM.
Qed.

Lemma C2_outline_subdecks_and_cards_witness :
  exists deck w',
    Builder.traverse (BeautifulSoup sample_outline) world0 = (Ok deck, w') /\
    Deck.name deck = "My Deck" /\
    length (Deck.sub_decks deck) = 2 /\
    List.map SubDeck.name (Deck.sub_decks deck) = ["S1"; "S2"] /\
    Forall (fun d => length (SubDeck.cards d) = 2) (Deck.sub_decks deck).
Proof.
  apply (C2_outline_subdecks_and_cards [] [NavigableString "My Deck"] [br]
           sample_sections 2 2 world0).
  - reflexivity.
  - reflexivity.
  - reflexivity.
  - reflexivity.
  - repeat constructor.
  - reflexivity.
  - repeat constructor.
  - discriminate.
Defined.

(** * Further properties *)

(** ** Identifiers and file names *)

Lemma from_source_identifier (e : nat -> Z) (i : Z) :
  from_source e i -> is_identifier i.
Proof.
  intros (k & ->). unfold is_identifier.
  pose proof (Z.mod_pos_bound (e k) 1000000000). lia.
Qed.

Lemma identifier_run (w : world) :
  exists i w',
    generate_identifier w = (Ok i, w') /\ from_source (entropy w) i /\
    advanced [] 1 w w'.
Proof.
  eexists _, _. split; [reflexivity|]. split.
  - now exists (drawn w).
  - unfold advanced. cbn. rewrite app_nil_r, Nat.add_1_r. repeat split.
Qed.

(** X1.  [generate_identifier] always returns a number between 999,999,999
    and 1,999,999,998, takes exactly one number from the random source, and
    prints and writes nothing. *)
Theorem X1_generate_identifier_range (w : world) :
  exists i w',
    generate_identifier w = (Ok i, w') /\ is_identifier i /\
    i = (999999999 + entropy w (drawn w) mod 1000000000)%Z /\
    advanced [] 1 w w'.
Proof.
  eexists _, _. split; [reflexivity|]. split.
  - unfold is_identifier.
    pose proof (Z.mod_pos_bound (entropy w (drawn w)) 1000000000). lia.
  - split; [reflexivity|]. unfold advanced. cbn.
    rewrite app_nil_r, Nat.add_1_r. repeat split.
Qed.

Lemma sanitize_char_idempotent (c : ascii) :
  let f := fun c => Str.ascii_lower
                      (if Ascii.eqb c (ascii_of_nat 32) then ascii_of_nat 45 else c) in
  f (f c) = f c.
Proof.
  cbv beta zeta.
  assert (Hlow : forall x, Str.ascii_lower (Str.ascii_lower x) = Str.ascii_lower x).
  { intros x. pose proof (ascii_lower_not_upper x) as H. cbv zeta in H.
    unfold Str.ascii_lower at 1.
    destruct ((65 <=? nat_of_ascii (Str.ascii_lower x))%nat
              && (nat_of_ascii (Str.ascii_lower x) <=? 90)%nat) eqn:E; [|reflexivity].
    apply andb_true_iff in E as [H1 H2]. apply Nat.leb_le in H1, H2.
    exfalso. apply H. split; assumption. }
  destruct (Ascii.eqb c (ascii_of_nat 32)) eqn:E.
  - reflexivity.
  - assert (Hn : Str.ascii_lower c <> ascii_of_nat 32).
    { apply ascii_lower_not_space. intros ->. now rewrite Ascii.eqb_refl in E. }
    apply Ascii.eqb_neq in Hn. rewrite Hn. apply Hlow.
Qed.

(** X2.  Sanitizing is idempotent on a name of ASCII characters: a deck
    named after the file name of another deck gets the same file name, so
    both are exported to the same path.  (Outside ASCII the lower-casing of
    the runtime is a parameter of the model, and nothing is claimed.) *)
Theorem X2_file_name_idempotent {U : Str.Unicode} (d : Deck.t) :
  Str.is_ascii (Deck.name d) = true ->
  Deck.file_name {| Deck.id := Deck.id d; Deck.name := Deck.file_name d;
                    Deck.sub_decks := Deck.sub_decks d |} = Deck.file_name d
  /\ output_path (Deck.file_name d) = output_path (Deck.name d).
Proof.
  intros Ha.
  assert (E : Str.lower (Str.replace " " "-" (Str.lower (Str.replace " " "-" (Deck.name d)))) =
              Str.lower (Str.replace " " "-" (Deck.name d))).
  { destruct (sanitized_ascii (Deck.name d) Ha) as [E1 A1].
    destruct (sanitized_ascii _ A1) as [E2 _].
    rewrite E2, E1, map_map. clear.
    induction (Deck.name d) as [|c s IH]; [reflexivity|].
    cbn [Str.map]. rewrite IH. f_equal. apply sanitize_char_idempotent. }
  split.
  - unfold Deck.file_name. cbn [Deck.name]. apply E.
  - unfold output_path, Deck.file_name. now rewrite E.
Qed.

Lemma X2_file_name_idempotent_witness :
  Deck.file_name (U := Str.ascii_only)
    {| Deck.id := 1;
       Deck.name :=
         Deck.file_name (U := Str.ascii_only)
           {| Deck.id := 1; Deck.name := "My Deck"; Deck.sub_decks := [] |};
       Deck.sub_decks := [] |}
  = Deck.file_name (U := Str.ascii_only)
      {| Deck.id := 1; Deck.name := "My Deck"; Deck.sub_decks := [] |}
  /\ output_path (U := Str.ascii_only)
       (Deck.file_name (U := Str.ascii_only)
          {| Deck.id := 1; Deck.name := "My Deck"; Deck.sub_decks := [] |})
     = output_path (U := Str.ascii_only) "My Deck".
Proof.
  apply (X2_file_name_idempotent (U := Str.ascii_only)
           {| Deck.id := 1; Deck.name := "My Deck"; Deck.sub_decks := [] |}).
  reflexivity.
Defined.

(** ** The list formatter, in general *)

Lemma find_first_child (name : string) (t : string) (pre cs rest : list node) :
  String.eqb t name = false ->
  any_has_tag name pre = false ->
  find name (BeautifulSoup [Tag t (pre ++ Tag name cs :: rest)]) =
  Some {| el := Tag name cs; next_siblings := rest |}.
Proof.
  intros Ht Hpre. unfold find. rewrite find_all_soup, walk_cons.
  cbn [List.filter matches el tag_named]. rewrite Ht.
  rewrite descendants_tag, List.filter_app, filter_walk_skip by assumption.
  rewrite walk_cons. cbn [List.filter matches el tag_named].
  now rewrite String.eqb_refl.
Qed.

Lemma fold_left_sub_note_lines (rest : list node) (init : string) :
  fold_left
    (fun formatted sub_note =>
       formatted +:+ Str.tab +:+ "- " +:+ text (el sub_note) +:+ Str.nl)
    (List.filter (matches (Some "li")) (positions rest))
    init =
  init +:+ Str.concat (List.map sub_note_line (List.filter (tag_named "li") rest)).
Proof.
  revert init. induction rest as [|c r IH]; intros init.
  - cbn [positions List.filter fold_left List.map Str.concat].
    now rewrite append_empty_r.
  - cbn [positions List.filter matches el].
    destruct (tag_named "li" c); [|apply IH].
    cbn [fold_left List.map Str.concat]. rewrite IH.
    unfold sub_note_line. now rewrite !append_assoc.
Qed.

Lemma format_ul_first_item (pre cs rest : list node) :
  any_has_tag "li" pre = false ->
  Builder.format_ul (BeautifulSoup [Tag "ul" (pre ++ Tag "li" cs :: rest)]) =
  Str.removesuffix (Str.nl +:+ Str.nl +:+ Str.nl) (text (Tag "li" cs)) +:+ Str.nl
  +:+ Str.concat (List.map sub_note_line (List.filter (tag_named "li") rest)).
Proof.
  intros Hpre. unfold Builder.format_ul.
  rewrite (find_first_child "li" "ul" pre cs rest) by (reflexivity || assumption).
  unfold find_next_siblings. cbn [next_siblings el].
  rewrite fold_left_sub_note_lines. now rewrite append_assoc.
Qed.

(** X3.  Whatever stands in the list before its first item (free text, line
    breaks, anything without an item inside) is left out.  The first item
    gives the first line; every later item beside it gives one line after a
    tab and a dash; what is between those items is skipped. *)
Theorem X3_format_ul_first_item_and_siblings (pre cs rest : list node) :
  any_has_tag "li" pre = false ->
  Builder.format_ul (BeautifulSoup [Tag "ul" (pre ++ Tag "li" cs :: rest)]) =
  Str.removesuffix (Str.nl +:+ Str.nl +:+ Str.nl) (text (Tag "li" cs)) +:+ Str.nl
  +:+ Str.concat (List.map sub_note_line (List.filter (tag_named "li") rest)).
Proof. apply format_ul_first_item. Qed.

Lemma X3_format_ul_first_item_and_siblings_witness :
  Builder.format_ul (BeautifulSoup [ul_text_then_items]) =
  Str.removesuffix (Str.nl +:+ Str.nl +:+ Str.nl) (text (li "Sub Note")) +:+ Str.nl
  +:+ Str.concat (List.map sub_note_line
                    (List.filter (tag_named "li") [li "Sub Note"])).
Proof.
  apply (X3_format_ul_first_item_and_siblings
           [NavigableString "Top Level Note"] [NavigableString "Sub Note"]
           [li "Sub Note"]).
  reflexivity.
Defined.

(** X4.  When the text of the first item ends with three line breaks, they
    are taken off before the line is closed; the lines of the later items
    keep their text as it is. *)
Theorem X4_format_ul_strips_triple_newline
    (pre cs rest : list node) (s : string) :
  any_has_tag "li" pre = false ->
  text (Tag "li" cs) = s +:+ Str.nl +:+ Str.nl +:+ Str.nl ->
  Builder.format_ul (BeautifulSoup [Tag "ul" (pre ++ Tag "li" cs :: rest)]) =
  s +:+ Str.nl
  +:+ Str.concat (List.map sub_note_line (List.filter (tag_named "li") rest)).
Proof.
  intros Hpre Ht. rewrite format_ul_first_item by assumption.
  now rewrite Ht, removesuffix_append.
Qed.

Lemma X4_format_ul_strips_triple_newline_witness :
  Builder.format_ul
    (BeautifulSoup
       [Tag "ul" ([] ++ Tag "li" [NavigableString ("Top" +:+ Str.nl +:+ Str.nl +:+ Str.nl)]
                        :: [li "A"])]) =
  "Top" +:+ Str.nl
  +:+ Str.concat (List.map sub_note_line (List.filter (tag_named "li") [li "A"])).
Proof.
  apply (X4_format_ul_strips_triple_newline []
           [NavigableString ("Top" +:+ Str.nl +:+ Str.nl +:+ Str.nl)] [li "A"] "Top").
  - reflexivity.
  - reflexivity.
Defined.

(** ** Cards and decks from headings *)

Lemma find_next_sibling_first (name : string) (e : node) (pre cs post : list node) :
  Forall (fun n => tag_named name n = false) pre ->
  find_next_sibling name {| el := e; next_siblings := pre ++ Tag name cs :: post |} =
  Some {| el := Tag name cs; next_siblings := post |}.
Proof.
  intros Hpre. unfold find_next_sibling, find_next_siblings. cbn [next_siblings].
  induction Hpre as [|c r Hc _ IH].
  - cbn [app positions List.filter matches el tag_named].
    now rewrite String.eqb_refl.
  - cbn [app positions List.filter matches el]. now rewrite Hc.
Qed.

(** X5.  [create_note] takes the first list among all the siblings after
    the heading, whatever stands between the two (text, paragraphs, other
    headings of any level): the card's front is the heading text, its back
    is that list formatted, its tags are empty and its identifier is in the
    range of [generate_identifier]. *)
Theorem X5_create_note_takes_first_later_list
    (heading : node) (pre cs post : list node) (w : world) :
  Forall (fun n => tag_named "ul" n = false) pre ->
  exists card w',
    Builder.create_note
      {| el := heading; next_siblings := pre ++ Tag "ul" cs :: post |} w
      = (Ok card, w') /\
    Card.front card = text heading /\
    Card.back card = Builder.format_ul (BeautifulSoup [Tag "ul" cs]) /\
    Card.tags card = [] /\
    is_identifier (Card.id card) /\
    advanced ["Card: " +:+ text heading] 1 w w'.
Proof.
  intros Hpre. unfold Builder.create_note.
  destruct (identifier_run w) as (i & w1 & Hg & Hi & A1). step Hg.
  apply from_source_identifier in Hi.
  cbv zeta. rewrite (find_next_sibling_first "ul" heading pre cs post Hpre).
  cbn [el].
  eexists _, _. split; [reflexivity|]. cbn [Card.front Card.back Card.tags Card.id].
  do 4 (split; [reflexivity || assumption|]).
  destruct A1 as (? & ? & ? & ? & Ho & Hd & ? & ?). unfold advanced. cbn.
  rewrite Ho, Hd, app_nil_r. repeat split; assumption.
Qed.

Lemma head_filter_app {X : Type} (f : X -> bool) (a b : list X) :
  head (List.filter f (a ++ b)) =
  match head (List.filter f a) with
  | Some x => Some x
  | None => head (List.filter f b)
  end.
Proof. rewrite List.filter_app. now destruct (List.filter f a). Qed.

Lemma first_tag_tag (name t : string) (cs : list node) :
  first_tag name (Tag t cs) =
  if String.eqb t name then Some (Tag t cs) else first_tag_of name cs.
Proof. reflexivity. Qed.

Lemma find_first_tag_node (name : string) (n : node) :
  forall r,
    option_map el
      (head (List.filter (matches (Some name))
               ({| el := n; next_siblings := r |} :: descendants n))) =
    first_tag name n.
Proof.
  induction n as [s|s|t cs IH] using node_ind; intros r0; try reflexivity.
  rewrite first_tag_tag, descendants_tag.
  cbn [List.filter matches el tag_named].
  destruct (String.eqb t name); [reflexivity|].
  clear r0. induction IH as [|c r Hc _ IHr]; [reflexivity|].
  rewrite walk_cons.
  change ({| el := c; next_siblings := r |} :: descendants c ++ walk r)
    with (({| el := c; next_siblings := r |} :: descendants c) ++ walk r).
  rewrite head_filter_app. cbn [first_tag_of]. rewrite <- (Hc r).
  destruct (head (List.filter _ (_ :: descendants c))); [reflexivity|exact IHr].
Qed.

(** [find] returns the first tag of that name in document order, at any
    depth. *)
Lemma find_first_tag (name : string) (doc : list node) :
  option_map el (find name (BeautifulSoup doc)) = first_tag_of name doc.
Proof.
  unfold find. rewrite find_all_soup.
  induction doc as [|c r IH]; [reflexivity|].
  rewrite walk_cons.
  change ({| el := c; next_siblings := r |} :: descendants c ++ walk r)
    with (({| el := c; next_siblings := r |} :: descendants c) ++ walk r).
  rewrite head_filter_app. cbn [first_tag_of].
  rewrite <- (find_first_tag_node name c r).
  destruct (head (List.filter _ (_ :: descendants c))); [reflexivity|exact IH].
Qed.

(** X6.  The deck is named after the first level-1 heading of the document
    in document order, wherever it stands (at top level or inside another
    element); later level-1 headings are not looked at, the deck starts
    without sub-decks, its identifier is in the range of
    [generate_identifier], one number is drawn and nothing is printed.  A
    document without a level-1 heading makes [build_deck] raise
    [ValueError] and leaves the world as it is. *)
Theorem X6_build_deck_takes_first_h1 (doc : list node) (w : world) :
  match first_tag_of "h1" doc with
  | Some heading =>
      exists deck w',
        Builder.build_deck (BeautifulSoup doc) w = (Ok deck, w') /\
        Deck.name deck = text heading /\
        Deck.sub_decks deck = [] /\
        is_identifier (Deck.id deck) /\
        advanced [] 1 w w'
  | None => Builder.build_deck (BeautifulSoup doc) w = (Raise ValueError, w)
  end.
Proof.
  rewrite <- (find_first_tag "h1" doc). unfold Builder.build_deck.
  destruct (find "h1" (BeautifulSoup doc)) as [h1|]; [|reflexivity].
  cbn [option_map].
  destruct (identifier_run w) as (i & w1 & Hg & Hi & A1). step Hg.
  apply from_source_identifier in Hi.
  eexists _, _. split; [reflexivity|]. cbn. auto.
Qed.

Lemma X6_build_deck_takes_first_h1_witness :
  exists deck w',
    Builder.build_deck (BeautifulSoup doc_two_h1) world0 = (Ok deck, w') /\
    Deck.name deck = "First" /\
    Deck.sub_decks deck = [] /\
    is_identifier (Deck.id deck) /\
    advanced [] 1 world0 w'.
Proof. exact (X6_build_deck_takes_first_h1 doc_two_h1 world0). Defined.

Lemma X5_create_note_takes_first_later_list_witness :
  exists card w',
    Builder.create_note h3_before_h3 world0 = (Ok card, w') /\
    Card.front card = "Q1" /\
    Card.back card = Builder.format_ul (BeautifulSoup [Tag "ul" [li "a"]]) /\
    Card.tags card = [] /\
    is_identifier (Card.id card) /\
    advanced ["Card: Q1"] 1 world0 w'.
Proof.
  apply (X5_create_note_takes_first_later_list (h "h3" "Q1")
           [NavigableString Str.nl; h "h3" "Q2"; NavigableString Str.nl]
           [li "a"] [] world0).
  repeat constructor.
Defined.

(** ** What a run prints and draws *)

Lemma advanced_refl (w : world) : advanced [] 0 w w.
Proof. unfold advanced. rewrite app_nil_r, Nat.add_0_r. repeat split. Qed.

Lemma advanced_trans (l1 l2 : list string) (k1 k2 : nat) (w w1 w2 : world) :
  advanced l1 k1 w w1 -> advanced l2 k2 w1 w2 ->
  advanced (l1 ++ l2) (k1 + k2) w w2.
Proof.
  unfold advanced. intros (?&?&?&?&Ho1&Hd1&?&?) (?&?&?&?&Ho2&Hd2&?&?).
  rewrite Ho2, Ho1, Hd2, Hd1, app_assoc, Nat.add_assoc.
  repeat split; congruence.
Qed.

Lemma advanced_same_files (l : list string) (k : nat) (w w' : world) :
  advanced l k w w' -> same_files w w'.
Proof. unfold advanced, same_files. tauto. Qed.

Lemma echo_trace (line : string) (w : world) :
  exists w', echo line w = (Ok tt, w') /\ advanced [line] 0 w w'.
Proof.
  eexists. split; [reflexivity|]. unfold advanced. cbn.
  rewrite Nat.add_0_r. repeat split.
Qed.

Lemma create_subdeck_trace (h2 : PageElement) (w : world) :
  exists subdeck w',
    Builder.create_subdeck h2 w = (Ok subdeck, w') /\
    SubDeck.name subdeck = text (el h2) /\ SubDeck.cards subdeck = [] /\
    from_source (entropy w) (SubDeck.id subdeck) /\
    advanced ["Subdeck: " +:+ text (el h2)] 1 w w'.
Proof.
  unfold Builder.create_subdeck.
  destruct (identifier_run w) as (i & w1 & Hg & Hi & A1). step Hg.
  destruct (echo_trace ("Subdeck: " +:+ text (el h2)) w1) as (w2 & He & A2).
  cbv zeta. step He. eexists _, _. split; [reflexivity|]. cbn.
  do 3 (split; [reflexivity || assumption|]).
  apply (advanced_trans [] _ 1 0 w w1 w2 A1) in A2.
  now rewrite Nat.add_0_r in A2.
Qed.

Lemma create_note_trace (h3 ul : PageElement) (w : world) :
  find_next_sibling "ul" h3 = Some ul ->
  exists card w',
    Builder.create_note h3 w = (Ok card, w') /\
    card_content card =
      (text (el h3), Builder.format_ul (BeautifulSoup [el ul]), []) /\
    card_ok (from_source (entropy w)) card /\
    advanced [card_line card] 1 w w'.
Proof.
  intros Hul. unfold Builder.create_note.
  destruct (identifier_run w) as (i & w1 & Hg & Hi & A1). step Hg.
  cbv zeta. rewrite Hul.
  destruct (echo_trace ("Card: " +:+ text (el h3)) w1) as (w2 & He & A2).
  step He. eexists _, _. split; [reflexivity|].
  split; [reflexivity|]. split; [split; [exact Hi|reflexivity]|].
  apply (advanced_trans [] _ 1 0 w w1 w2 A1) in A2.
  now rewrite Nat.add_0_r in A2.
Qed.

Lemma parse_notes_loop_trace (siblings : list node) :
  forall (cards : list card_view) (acc : list Card.t) (w : world),
    notes_of siblings = Some cards ->
    exists notes w',
      Builder.parse_notes_loop siblings acc w = (Ok (acc ++ notes), w') /\
      List.map card_content notes = cards /\
      Forall (card_ok (from_source (entropy w))) notes /\
      advanced (List.map card_line notes) (length notes) w w'.
Proof.
  induction siblings as [|sibling rest IH]; intros cards acc w Hn.
  - injection Hn as <-. exists [], w. rewrite app_nil_r.
    repeat split; [constructor | apply advanced_refl ..].
  - destruct sibling as [s|s|name cs]; [now apply IH .. |].
    rewrite parse_notes_loop_tag. rewrite notes_of_tag in Hn.
    destruct (String.eqb name "h2").
    { injection Hn as <-. exists [], w. rewrite app_nil_r.
      repeat split; [constructor | apply advanced_refl ..]. }
    destruct (String.eqb name "h3"); [|now apply IH]. cbn [negb] in *.
    destruct (find_next_sibling "ul" _) as [ul|] eqn:Hul; [|discriminate].
    destruct (notes_of rest) as [later|] eqn:Hrest; [|discriminate].
    injection Hn as <-.
    destruct (create_note_trace _ ul w Hul) as (card & w1 & Hc & Hv & Hok & A1).
    step Hc.
    destruct (IH later (acc ++ [card]) w1 eq_refl) as (notes & w2 & Hl & Hm & Hf & A2).
    replace (entropy w1) with (entropy w) in Hf by (symmetry; apply A1).
    exists (card :: notes), w2. rewrite Hl, <- app_assoc.
    split; [reflexivity|]. split; [cbn [List.map el] in *; now rewrite Hv, Hm|].
    split; [now constructor|].
    apply (advanced_trans _ _ _ _ w w1 w2 A1 A2).
Qed.

Lemma collect_subdeck_trace (h2 : PageElement) (cards : list card_view)
    (acc : list SubDeck.t) (w : world) :
  notes_of (next_siblings h2) = Some cards ->
  exists subdeck w',
    Builder.collect_subdeck acc h2 w = (Ok (acc ++ [subdeck]), w') /\
    subdeck_content subdeck = (text (el h2), cards) /\
    subdeck_ok (from_source (entropy w)) subdeck /\
    advanced (subdeck_lines subdeck) (subdeck_draws subdeck) w w'.
Proof.
  intros Hn. unfold Builder.collect_subdeck.
  destruct (create_subdeck_trace h2 w) as (sd & w1 & Hs & Hname & Hcards & Hi & A1).
  step Hs. unfold Builder.parse_notes.
  destruct (parse_notes_loop_trace _ cards [] w1 Hn) as (notes & w2 & Hp & Hm & Hf & A2).
  replace (entropy w1) with (entropy w) in Hf by (symmetry; apply A1).
  step Hp. eexists _, w2. split; [reflexivity|].
  unfold subdeck_content, subdeck_ok, subdeck_lines, subdeck_draws.
  cbn [SubDeck.set_cards SubDeck.name SubDeck.cards SubDeck.id app].
  rewrite Hname, Hm. split; [reflexivity|]. split; [now split|].
  apply (advanced_trans _ _ _ _ w w1 w2 A1 A2).
Qed.

Lemma collect_subdecks_trace (h2s : list PageElement) :
  forall (views : list subdeck_view) (acc : list SubDeck.t) (w : world),
    subdecks_of h2s = Some views ->
    exists subdecks w',
      for_each Builder.collect_subdeck h2s acc w = (Ok (acc ++ subdecks), w') /\
      List.map subdeck_content subdecks = views /\
      Forall (subdeck_ok (from_source (entropy w))) subdecks /\
      advanced (flat_map subdeck_lines subdecks)
        (list_sum (List.map subdeck_draws subdecks)) w w'.
Proof.
  induction h2s as [|h2 r IH]; intros views acc w Hv.
  - injection Hv as <-. exists [], w. rewrite app_nil_r.
    repeat split; [constructor | apply advanced_refl ..].
  - cbn [subdecks_of] in Hv.
    destruct (notes_of (next_siblings h2)) as [cards|] eqn:Hn; [|discriminate].
    destruct (subdecks_of r) as [later|] eqn:Hr; [|discriminate].
    injection Hv as <-. cbn [for_each].
    destruct (collect_subdeck_trace h2 cards acc w Hn)
      as (sd & w1 & Hc & Hcv & Hok & A1).
    step Hc.
    destruct (IH later (acc ++ [sd]) w1 eq_refl) as (sds & w2 & Hl & Hm & Hf & A2).
    replace (entropy w1) with (entropy w) in Hf by (symmetry; apply A1).
    exists (sd :: sds), w2. rewrite Hl, <- app_assoc.
    split; [reflexivity|]. split; [cbn [List.map]; now rewrite Hcv, Hm|].
    split; [now constructor|].
    apply (advanced_trans _ _ _ _ w w1 w2 A1 A2).
Qed.

Lemma add_subdecks (subdecks : list SubDeck.t) (deck : Deck.t) :
  fold_left Deck.add_subdeck subdecks deck =
  {| Deck.id := Deck.id deck; Deck.name := Deck.name deck;
     Deck.sub_decks := Deck.sub_decks deck ++ subdecks |}.
Proof.
  revert deck. induction subdecks as [|s r IH]; intros deck; cbn [fold_left].
  - rewrite app_nil_r. now destruct deck.
  - rewrite IH. cbn. now rewrite <- app_assoc.
Qed.

Lemma build_subdecks_trace (soup : PageElement) (views : list subdeck_view)
    (w : world) :
  subdecks_of (find_next_siblings (Some "h2") soup ++ find_all "h2" soup)
    = Some views ->
  exists subdecks w',
    Builder.build_subdecks soup w = (Ok subdecks, w') /\
    List.map subdeck_content subdecks = views /\
    Forall (subdeck_ok (from_source (entropy w))) subdecks /\
    advanced (flat_map subdeck_lines subdecks)
      (list_sum (List.map subdeck_draws subdecks)) w w'.
Proof.
  intros Hv. unfold Builder.build_subdecks. rewrite <- for_each_app.
  apply (collect_subdecks_trace _ views [] w Hv).
Qed.

Lemma build_deck_trace (soup h1 : PageElement) (w : world) :
  find "h1" soup = Some h1 ->
  exists i w',
    Builder.build_deck soup w =
      (Ok {| Deck.id := i; Deck.name := text (el h1); Deck.sub_decks := [] |}, w') /\
    from_source (entropy w) i /\ advanced [] 1 w w'.
Proof.
  intros Hf. unfold Builder.build_deck. rewrite Hf.
  destruct (identifier_run w) as (i & w1 & Hg & Hi & A1). step Hg.
  eexists _, _. split; [reflexivity|]. auto.
Qed.

Lemma traverse_trace (soup : PageElement) (view : deck_view) (w : world) :
  content_of soup = Some view ->
  dist w <> RegularFile ->
  exists deck w',
    Builder.traverse soup w = (Ok deck, w') /\
    deck_content deck = view /\
    deck_ok (from_source (entropy w)) deck /\
    advanced (deck_lines deck) (deck_draws deck) (ready w) w'.
Proof.
  unfold content_of, Builder.traverse.
  intros Hc Hd.
  destruct (find "h1" soup) as [h1|] eqn:Hh; [|discriminate].
  destruct (subdecks_of _) as [views|] eqn:Hv; [|discriminate].
  injection Hc as <-.
  destruct (build_deck_trace soup h1 w Hh) as (i & w1 & Hg & Hi & A1). step Hg.
  cbn [Deck.name].
  destruct (echo_trace ("Deck: " +:+ text (el h1)) w1) as (w2 & He & A2). step He.
  destruct (build_subdecks_trace soup views w2 Hv) as (sds & w3 & Hs & Hm & Hf & A3).
  step Hs. cbv zeta. rewrite ensure_dist_run, add_subdecks.
  cbn [Deck.id Deck.name Deck.sub_decks app].
  pose proof (advanced_trans _ _ _ _ _ _ _ (advanced_trans _ _ _ _ _ _ _ A1 A2) A3)
    as A.
  cbn [app] in A. rewrite Nat.add_0_r in A.
  assert (Hdeck : deck_content
                    {| Deck.id := i; Deck.name := text (el h1); Deck.sub_decks := sds |}
                  = (text (el h1), views)
                  /\ deck_ok (from_source (entropy w))
                       {| Deck.id := i; Deck.name := text (el h1);
                          Deck.sub_decks := sds |}).
  { assert (Ee : entropy w2 = entropy w).
    { destruct A1 as (_ & _ & _ & E1 & _), A2 as (_ & _ & _ & E2 & _).
      congruence. }
    rewrite Ee in Hf. unfold deck_content, deck_ok. cbn. now rewrite Hm. }
  destruct Hdeck as (Hdc & Hdo).
  destruct A as (Ad & Ap & As & Ae & Ao & An & Aos & Aun).
  rewrite Ad. destruct (dist w) eqn:Ew; [| |congruence].
  - eexists _, _. split; [reflexivity|]. split; [exact Hdc|]. split; [exact Hdo|].
    unfold advanced, deck_lines, deck_draws, ready. cbn. auto 12.
  - eexists _, _. split; [reflexivity|]. split; [exact Hdc|]. split; [exact Hdo|].
    unfold advanced, deck_lines, deck_draws, ready. cbn. auto 12.
Qed.

Lemma traverse_ok_inv (soup : PageElement) (w w' : world) (deck : Deck.t) :
  Builder.traverse soup w = (Ok deck, w') ->
  exists view, content_of soup = Some view /\ dist w <> RegularFile.
Proof.
  intros H. pose proof (traverse_run soup w) as R. rewrite H in R.
  destruct (content_of soup) as [view|].
  - exists view. split; [reflexivity|].
    destruct (dist w); [discriminate .. |].
    destruct R as (? & [=] & _).
  - destruct R as (? & [=] & _).
Qed.

Lemma subdecks_of_names (h2s : list PageElement) :
  forall views,
    subdecks_of h2s = Some views ->
    List.map fst views = List.map (fun e => text (el e)) h2s.
Proof.
  induction h2s as [|h2 r IH]; intros views Hv.
  - now injection Hv as <-.
  - cbn [subdecks_of] in Hv.
    destruct (notes_of (next_siblings h2)) as [cards|]; [|discriminate].
    destruct (subdecks_of r) as [later|]; [|discriminate].
    injection Hv as <-. cbn [List.map fst]. now rewrite (IH later eq_refl).
Qed.

Lemma count_tag_tag (name t : string) (cs : list node) :
  count_tag name (Tag t cs) =
  (if String.eqb t name then 1 else 0) + count_tags name cs.
Proof.
  cbn [count_tag]. f_equal. unfold count_tags.
  induction cs as [|c r IH]; [reflexivity|]. cbn [List.map list_sum]. now rewrite IH.
Qed.

Lemma count_found (name : string) (n : node) (r : list node) :
  length (List.filter (matches (Some name))
            ({| el := n; next_siblings := r |} :: descendants n)) =
  count_tag name n.
Proof.
  revert r. induction n as [s|s|t cs IH] using node_ind; intros r0;
    [reflexivity .. |].
  rewrite count_tag_tag, descendants_tag.
  cbn [List.filter matches el tag_named].
  assert (E : length (List.filter (matches (Some name)) (walk cs)) =
              count_tags name cs).
  { clear r0. unfold count_tags. induction IH as [|c r Hc _ IHr]; [reflexivity|].
    rewrite walk_cons.
    change ({| el := c; next_siblings := r |} :: descendants c ++ walk r)
      with (({| el := c; next_siblings := r |} :: descendants c) ++ walk r).
    rewrite List.filter_app, List.length_app, Hc, IHr. reflexivity. }
  destruct (String.eqb t name); cbn [length]; rewrite E; reflexivity.
Qed.

Lemma count_find_all (name : string) (doc : list node) :
  length (find_all name (BeautifulSoup doc)) = count_tags name doc.
Proof.
  rewrite find_all_soup. unfold count_tags.
  induction doc as [|c r IH]; [reflexivity|].
  rewrite walk_cons.
  change ({| el := c; next_siblings := r |} :: descendants c ++ walk r)
    with (({| el := c; next_siblings := r |} :: descendants c) ++ walk r).
  rewrite List.filter_app, List.length_app, count_found, IH. reflexivity.
Qed.

(** X7.  A deck returned by [traverse] has one sub-deck for every level-2
    heading of the document, at whatever depth the heading stands, in
    document order and named by the heading text: their number is the
    number of [h2] tags in the tree. *)
Theorem X7_one_subdeck_per_h2_at_any_depth
    (doc : list node) (w w' : world) (deck : Deck.t) :
  Builder.traverse (BeautifulSoup doc) w = (Ok deck, w') ->
  List.map SubDeck.name (Deck.sub_decks deck) =
    List.map (fun e => text (el e)) (find_all "h2" (BeautifulSoup doc)) /\
  length (Deck.sub_decks deck) = count_tags "h2" doc.
Proof.
  intros H.
  destruct (traverse_ok_inv _ _ _ _ H) as (view & Hc & Hd).
  destruct (traverse_trace _ view w Hc Hd) as (deck0 & w0 & H0 & Hv & _).
  rewrite H in H0. injection H0 as <- <-.
  unfold content_of in Hc.
  destruct (find "h1" _) as [h1|]; [|discriminate].
  destruct (subdecks_of _) as [views|] eqn:Es; [|discriminate].
  injection Hc as <-. unfold deck_content in Hv. injection Hv as _ Hm.
  apply subdecks_of_names in Es.
  cbn [find_next_siblings BeautifulSoup next_siblings positions List.filter app] in Es.
  assert (Hn : List.map SubDeck.name (Deck.sub_decks deck) =
               List.map (fun e => text (el e)) (find_all "h2" (BeautifulSoup doc))).
  { rewrite <- Es, <- Hm, List.map_map. reflexivity. }
  split; [exact Hn|].
  apply (f_equal (@length _)) in Hn. rewrite !List.length_map in Hn.
  now rewrite Hn, count_find_all.
Qed.

Lemma X7_one_subdeck_per_h2_at_any_depth_witness :
  List.map SubDeck.name (Deck.sub_decks nested_deck) =
    List.map (fun e => text (el e)) (find_all "h2" (BeautifulSoup doc_nested_h2)) /\
  length (Deck.sub_decks nested_deck) = count_tags "h2" doc_nested_h2.
Proof.
  apply (X7_one_subdeck_per_h2_at_any_depth doc_nested_h2 world0
           (snd (Builder.traverse (BeautifulSoup doc_nested_h2) world0))).
  vm_compute. reflexivity.
Defined.

Lemma deck_ok_impl (P Q : Z -> Prop) (d : Deck.t) :
  (forall i, P i -> Q i) -> deck_ok P d -> deck_ok Q d.
Proof.
  intros HPQ (Hd & Hs). split; [auto|].
  eapply Forall_impl; [exact Hs|]. intros sd (Hi & Hc). split; [auto|].
  eapply Forall_impl; [exact Hc|]. intros c (Hci & Ht). split; auto.
Qed.

Lemma traverse_deck_from_source
    (soup : PageElement) (w w' : world) (deck : Deck.t) :
  Builder.traverse soup w = (Ok deck, w') ->
  deck_ok (from_source (entropy w)) deck.
Proof.
  intros H.
  destruct (traverse_ok_inv _ _ _ _ H) as (view & Hc & Hd).
  destruct (traverse_trace _ view w Hc Hd) as (deck0 & w0 & H0 & _ & Hok & _).
  rewrite H in H0. now injection H0 as <- <-.
Qed.

(** X8.  In a deck returned by [traverse], the identifier of the deck, of
    every sub-deck and of every card lies in the range of
    [generate_identifier], and every card has the empty tag list. *)
Theorem X8_traversed_deck_identifiers_and_tags
    (soup : PageElement) (w w' : world) (deck : Deck.t) :
  Builder.traverse soup w = (Ok deck, w') -> deck_ok is_identifier deck.
Proof.
  intros H. eapply deck_ok_impl; [|exact (traverse_deck_from_source _ _ _ _ H)].
  apply from_source_identifier.
Qed.

Lemma X8_traversed_deck_identifiers_and_tags_witness :
  deck_ok is_identifier sample_deck.
Proof.
  apply (X8_traversed_deck_identifiers_and_tags (BeautifulSoup sample_outline) world0
           (snd (Builder.traverse (BeautifulSoup sample_outline) world0))).
  vm_compute. reflexivity.
Defined.

(** X9.  A successful [traverse] prints exactly the progress lines of the
    deck it returns ([Deck:], then per sub-deck [Subdeck:] followed by one
    [Card:] line per card, in order) and draws exactly one identifier for
    the deck, one per sub-deck and one per card; the random source itself
    is left as it was. *)
Theorem X9_traverse_progress_lines_and_draws
    (soup : PageElement) (w w' : world) (deck : Deck.t) :
  Builder.traverse soup w = (Ok deck, w') ->
  stdout w' = stdout w ++ deck_lines deck /\
  drawn w' = drawn w + deck_draws deck /\
  entropy w' = entropy w.
Proof.
  intros H.
  destruct (traverse_ok_inv _ _ _ _ H) as (view & Hc & Hd).
  destruct (traverse_trace _ view w Hc Hd) as (deck0 & w0 & H0 & _ & _ & A).
  rewrite H in H0. injection H0 as <- <-.
  destruct A as (_ & _ & _ & Ae & Ao & An & _). cbn [ready stdout drawn entropy] in *.
  auto.
Qed.

Lemma X9_traverse_progress_lines_and_draws_witness :
  stdout (snd (Builder.traverse (BeautifulSoup sample_outline) world0)) =
    stdout world0 ++ deck_lines sample_deck /\
  drawn (snd (Builder.traverse (BeautifulSoup sample_outline) world0)) =
    drawn world0 + deck_draws sample_deck /\
  entropy (snd (Builder.traverse (BeautifulSoup sample_outline) world0)) =
    entropy world0.
Proof.
  apply (X9_traverse_progress_lines_and_draws (BeautifulSoup sample_outline) world0
           (snd (Builder.traverse (BeautifulSoup sample_outline) world0)) sample_deck).
  vm_compute. reflexivity.
Defined.


(** X14.  Nothing makes the identifiers of a run differ from one another:
    each is 999,999,999 plus a number of the random source, and when the
    source keeps giving the same number, the deck, all its sub-decks and all
    its cards get the same identifier. *)
Theorem X14_identifiers_collide_on_constant_source
    (soup : PageElement) (w w' : world) (deck : Deck.t) (c : Z) :
  (forall k, entropy w k = c) ->
  Builder.traverse soup w = (Ok deck, w') ->
  deck_ok (fun i => i = (999999999 + c mod 1000000000)%Z) deck.
Proof.
  intros Hc H. eapply deck_ok_impl; [|exact (traverse_deck_from_source _ _ _ _ H)].
  intros i (k & ->). now rewrite Hc.
Qed.

Lemma X14_identifiers_collide_on_constant_source_witness :
  deck_ok (fun i => i = (999999999 + 7 mod 1000000000)%Z) constant_deck.
Proof.
  apply (X14_identifiers_collide_on_constant_source (BeautifulSoup sample_outline)
           world_constant
           (snd (Builder.traverse (BeautifulSoup sample_outline) world_constant))
           constant_deck 7%Z).
  - reflexivity.
  - vm_compute. reflexivity.
Defined.

(** ** The cards of a section *)

Lemma notes_of_fronts (siblings : list node) :
  forall cards,
    notes_of siblings = Some cards ->
    List.map (fun c : card_view => fst (fst c)) cards =
    List.map text (List.filter (tag_named "h3") (before_h2 siblings)).
Proof.
  induction siblings as [|n r IH]; intros cards Hn.
  - now injection Hn as <-.
  - destruct n as [s|s|name cs]; [now apply IH .. |].
    rewrite notes_of_tag in Hn. cbn [before_h2 tag_named].
    destruct (String.eqb name "h2") eqn:E2; [now injection Hn as <-|].
    cbn [List.filter tag_named].
    destruct (String.eqb name "h3") eqn:E3; cbn [negb] in Hn; [|now apply IH].
    destruct (find_next_sibling "ul" _) as [ul|]; [|discriminate].
    destruct (notes_of r) as [later|]; [|discriminate].
    injection Hn as <-. cbn [List.map fst]. now rewrite (IH later eq_refl).
Qed.

Lemma parse_notes_ok_inv (h2 : PageElement) (w w' : world) (notes : list Card.t) :
  Builder.parse_notes h2 w = (Ok notes, w') ->
  exists cards,
    notes_of (next_siblings h2) = Some cards /\
    List.map card_content notes = cards /\
    advanced (List.map card_line notes) (length notes) w w'.
Proof.
  intros H. unfold Builder.parse_notes in H.
  destruct (notes_of (next_siblings h2)) as [cards|] eqn:Hn.
  - exists cards. split; [reflexivity|].
    destruct (parse_notes_loop_trace _ cards [] w Hn) as (ns & w0 & H0 & Hm & _ & A).
    rewrite H in H0. injection H0 as -> <-. auto.
  - pose proof (parse_notes_loop_run (next_siblings h2) [] w) as R.
    rewrite Hn, H in R. destruct R as (? & [=] & _).
Qed.

(** X15.  When [parse_notes] returns, it has made exactly one card for each
    level-3 heading that stands among the siblings of the level-2 heading
    before the next level-2 heading, in order, with the heading text as the
    front; siblings that are not level-3 headings give no card, and what
    comes after the next level-2 heading gives none either.  One [Card:]
    line is printed and one identifier drawn per card. *)
Theorem X15_parse_notes_one_card_per_h3_of_section
    (h2 : PageElement) (w w' : world) (notes : list Card.t) :
  Builder.parse_notes h2 w = (Ok notes, w') ->
  List.map Card.front notes =
    List.map text (List.filter (tag_named "h3") (before_h2 (next_siblings h2))) /\
  stdout w' = stdout w ++ List.map card_line notes /\
  drawn w' = drawn w + length notes.
Proof.
  intros H. destruct (parse_notes_ok_inv _ _ _ _ H) as (cards & Hn & Hm & A).
  split.
  - rewrite <- (notes_of_fronts _ cards Hn), <- Hm, List.map_map. reflexivity.
  - destruct A as (_ & _ & _ & _ & Ao & Ad & _). auto.
Qed.

Lemma X15_parse_notes_one_card_per_h3_of_section_witness :
  List.map Card.front section_cards =
    List.map text
      (List.filter (tag_named "h3")
         (before_h2 (next_siblings section_with_two_cards))) /\
  stdout (snd (Builder.parse_notes section_with_two_cards world0)) =
    stdout world0 ++ List.map card_line section_cards /\
  drawn (snd (Builder.parse_notes section_with_two_cards world0)) =
    drawn world0 + length section_cards.
Proof.
  apply (X15_parse_notes_one_card_per_h3_of_section section_with_two_cards world0
           (snd (Builder.parse_notes section_with_two_cards world0)) section_cards).
  vm_compute. reflexivity.
Defined.

(** ** What a run writes *)

Lemma model_trace (w : world) :
  exists m w',
    Builder.model w = (Ok m, w') /\
    genanki.model_name m = "Simple Model" /\
    genanki.model_fields m = ["Question"; "Answer"] /\
    length (genanki.templates m) = 1 /\
    is_identifier (genanki.model_id m) /\
    advanced [] 1 w w'.
Proof.
  unfold Builder.model.
  destruct (identifier_run w) as (i & w1 & Hg & Hi & A1). step Hg.
  apply from_source_identifier in Hi.
  eexists _, _. split; [reflexivity|]. cbn. auto 6.
Qed.

Lemma open_error_none_dist (w : world) (path : string) :
  open_error w path = None -> dist w = Directory.
Proof.
  unfold open_error. destruct (Str.contains _ path); [discriminate|].
  now destruct (dist w).
Qed.

(** The package [export] writes for a deck whose last sub-deck is [last]. *)
Lemma export_package {U : Str.Unicode} (deck : Deck.t) (pre : list SubDeck.t)
    (last : SubDeck.t) (w : world) :
  Deck.sub_decks deck = pre ++ [last] ->
  deck_tags_accepted deck = true ->
  open_error w (output_path (Deck.name deck)) = None ->
  exists m w',
    Builder.export deck w = (Ok tt, w') /\
    genanki.model_name m = "Simple Model" /\
    genanki.model_fields m = ["Question"; "Answer"] /\
    is_identifier (genanki.model_id m) /\
    packages w' =
      <[output_path (Deck.name deck) :=
          genanki.Package_of (exported_deck m (Deck.name deck) last)]> (packages w) /\
    dist w' = Directory /\ sources w' = sources w /\
    stdout w' = stdout w /\ drawn w' = S (drawn w).
Proof.
  intros Hs Ht Ho.
  destruct (export_eq deck w) as (m & w1 & Hm & F1 & E).
  destruct (model_trace w) as (m' & w1' & Hm' & Hn & Hf & _ & Hi & A1).
  rewrite Hm in Hm'. injection Hm' as <- <-.
  unfold deck_tags_accepted in Ht. rewrite Ht, Hs, last_snoc in E.
  unfold write_to_file in E. rewrite (open_error_same w w1 _ F1), Ho in E.
  exists m. eexists. split; [exact E|].
  cbn [packages dist sources stdout drawn].
  destruct A1 as (Ad & Ap & As & Ae & Aout & An & _).
  rewrite app_nil_r in Aout. rewrite Nat.add_1_r in An.
  rewrite Ap, Ad, (open_error_none_dist _ _ Ho). auto 10.
Qed.

(** X11.  Take a deck with at least one sub-deck, no tag with a space in
    it (such a tag makes the note constructor raise) and an output path
    that the system lets the writer open.  Then [export] writes one file,
    named after the deck, that holds a single deck called
    [deck::last sub-deck] with one note per card of the last sub-deck, in
    order, each with the fields front and back and the card's tags.  The
    sub-decks before the last one leave no trace in the file. *)
Theorem X11_export_writes_last_subdeck {U : Str.Unicode}
    (deck : Deck.t) (pre : list SubDeck.t) (last : SubDeck.t) (w : world) :
  Deck.sub_decks deck = pre ++ [last] ->
  deck_tags_accepted deck = true ->
  open_error w (output_path (Deck.name deck)) = None ->
  exists p w',
    Builder.export deck w = (Ok tt, w') /\
    packages w' = <[output_path (Deck.name deck) := p]> (packages w) /\
    package_content p =
      [(Deck.name deck +:+ "::" +:+ SubDeck.name last,
        List.map (fun c => ([Card.front c; Card.back c], Card.tags c))
          (SubDeck.cards last))].
Proof.
  intros Hs Ht Ho.
  destruct (export_package deck pre last w Hs Ht Ho)
    as (m & w' & He & _ & _ & _ & Hp & _).
  eexists _, w'. split; [exact He|]. split; [exact Hp|].
  unfold package_content, genanki.Package_of, exported_deck.
  cbn [genanki.decks List.map genanki.name genanki.notes].
  now rewrite List.map_map.
Qed.

Lemma X11_export_writes_last_subdeck_witness :
  exists p w',
    Builder.export (U := Str.ascii_only) two_subdecks (ready world0) = (Ok tt, w') /\
    packages w' =
      <[output_path (U := Str.ascii_only) "D" := p]> (packages (ready world0)) /\
    package_content p =
      [("D" +:+ "::" +:+ "S2", [(["Q2"; "A2"], [])])].
Proof.
  apply (X11_export_writes_last_subdeck (U := Str.ascii_only) two_subdecks
           [ {| SubDeck.id := 2; SubDeck.name := "S1";
                SubDeck.cards := [ {| Card.id := 3; Card.front := "Q1";
                                      Card.back := "A1"; Card.tags := [] |} ] |} ]
           {| SubDeck.id := 4; SubDeck.name := "S2";
              SubDeck.cards := [ {| Card.id := 5; Card.front := "Q2";
                                    Card.back := "A2"; Card.tags := [] |} ] |}
           (ready world0)).
  - reflexivity.
  - reflexivity.
  - reflexivity.
Defined.

(** X12.  Under the same conditions the deck in the exported file carries
    the identifier of the last sub-deck.  All its notes share one model,
    made for this export: it is called [Simple Model], has the fields
    [Question] and [Answer] and a fresh identifier, and every note has as
    many fields as the model.  [export] prints nothing with [click.echo]
    and draws that one identifier. *)
Theorem X12_export_model_and_notes {U : Str.Unicode}
    (deck : Deck.t) (pre : list SubDeck.t) (last : SubDeck.t) (w : world) :
  Deck.sub_decks deck = pre ++ [last] ->
  deck_tags_accepted deck = true ->
  open_error w (output_path (Deck.name deck)) = None ->
  exists m d w',
    Builder.export deck w = (Ok tt, w') /\
    packages w' !! output_path (Deck.name deck) = Some {| genanki.decks := [d] |} /\
    genanki.deck_id d = SubDeck.id last /\
    length (genanki.notes d) = length (SubDeck.cards last) /\
    Forall (fun n => genanki.model n = m /\
                     length (genanki.fields n) = length (genanki.model_fields m))
      (genanki.notes d) /\
    genanki.model_name m = "Simple Model" /\
    genanki.model_fields m = ["Question"; "Answer"] /\
    is_identifier (genanki.model_id m) /\
    stdout w' = stdout w /\ drawn w' = S (drawn w).
Proof.
  intros Hs Ht Ho.
  destruct (export_package deck pre last w Hs Ht Ho)
    as (m & w' & He & Hn & Hf & Hi & Hp & _ & _ & Hout & Hdr).
  exists m. eexists _, w'. split; [exact He|].
  split; [rewrite Hp; apply lookup_insert_eq|].
  unfold exported_deck. cbn [genanki.deck_id genanki.notes].
  split; [reflexivity|]. split; [apply List.length_map|].
  split; [|auto 6].
  apply List.Forall_forall. intros n Hin.
  apply List.in_map_iff in Hin as (c & <- & _). cbn. now rewrite Hf.
Qed.

Lemma X12_export_model_and_notes_witness :
  exists m d w',
    Builder.export (U := Str.ascii_only) two_subdecks (ready world0) = (Ok tt, w') /\
    packages w' !! output_path (U := Str.ascii_only) "D"
      = Some {| genanki.decks := [d] |} /\
    genanki.deck_id d = 4%Z /\
    length (genanki.notes d) = 1 /\
    Forall (fun n => genanki.model n = m /\
                     length (genanki.fields n) = length (genanki.model_fields m))
      (genanki.notes d) /\
    genanki.model_name m = "Simple Model" /\
    genanki.model_fields m = ["Question"; "Answer"] /\
    is_identifier (genanki.model_id m) /\
    stdout w' = stdout (ready world0) /\ drawn w' = S (drawn (ready world0)).
Proof.
  apply (X12_export_model_and_notes (U := Str.ascii_only) two_subdecks
           [ {| SubDeck.id := 2; SubDeck.name := "S1";
                SubDeck.cards := [ {| Card.id := 3; Card.front := "Q1";
                                      Card.back := "A1"; Card.tags := [] |} ] |} ]
           {| SubDeck.id := 4; SubDeck.name := "S2";
              SubDeck.cards := [ {| Card.id := 5; Card.front := "Q2";
                                    Card.back := "A2"; Card.tags := [] |} ] |}
           (ready world0)).
  - reflexivity.
  - reflexivity.
  - reflexivity.
Defined.



(** ** The command *)

